(** * Grid trading bot: grid model, request signing, exchange client, proxy
      and application state

    A shallow embedding of the TypeScript/JavaScript sources
    ([src/hooks/useGridSettings.ts], [src/services/binanceApi.ts] in its two
    versions, [server.js], [src/App.tsx]) together with the properties the
    specification states about them.

    JavaScript numbers are IEEE 754 binary64 values: they are modelled by
    Rocq's primitive floats, whose operations are the binary64 operations
    rounded to nearest even.  Strings are byte strings (the UTF-8 encoding
    of the source string), maps with string keys are finite maps. *)

From Stdlib Require Import ZArith List Bool Lia Floats Ascii String.
From stdpp Require Import gmap strings list pretty.
Import ListNotations.

Local Open Scope Z_scope.

(** ** JavaScript values shared by all modules *)

Module Js.

(** A thrown value.  Every exception the modelled code creates or
    observes is an [Error] object: [name] is its constructor name,
    [message] its text, [code]/[msg] the optional fields the Binance
    client probes for. *)
Record Error := mkError {
  name : string;
  message : string;
  code : option Z;
  msg : option string
}.

Definition newError (m : string) : Error := mkError "Error" m None None.
Definition newRangeError (m : string) : Error := mkError "RangeError" m None None.

(** Completion of a call: a value or a thrown error. *)
Inductive completion (A : Type) : Type :=
| Normal (a : A)
| Throw (e : Error).
Arguments Normal {A} a.
Arguments Throw {A} e.

Definition bind {A B} (c : completion A) (k : A -> completion B) : completion B :=
  match c with
  | Normal a => k a
  | Throw e => Throw e
  end.

(** [Number(i)] for an array index. *)
Definition ofNat (i : nat) : float := of_uint63 (Uint63.of_Z (Z.of_nat i)).

(** [Number.isFinite]. *)
Definition isFinite (x : float) : bool :=
  match Prim2SF x with
  | S754_zero _ | S754_finite _ _ _ => true
  | S754_infinity _ | S754_nan => false
  end.

Definition isNaN (x : float) : bool :=
  match Prim2SF x with
  | S754_nan => true
  | _ => false
  end.

(** ECMAScript [ToLength]: NaN and negative values give 0, the value is
    truncated toward zero and capped at 2^53 - 1. *)
Definition maxSafeInteger : Z := 2 ^ 53 - 1.

Definition ToLength (x : float) : Z :=
  match Prim2SF x with
  | S754_nan | S754_zero _ | S754_infinity true | S754_finite true _ _ => 0
  | S754_infinity false => maxSafeInteger
  | S754_finite false m e =>
      Z.min maxSafeInteger
            (if 0 <=? e then Z.pos m * 2 ^ e else Z.pos m / 2 ^ (- e))
  end.

(** [Array.from({ length: len }, (_, i) => f i)]: the array constructor
    refuses a length above 2^32 - 1 with a [RangeError]. *)
Definition maxArrayLength : Z := 2 ^ 32 - 1.

Definition ArrayFrom {A} (len : float) (f : nat -> A) : completion (list A) :=
  let n := ToLength len in
  if n <=? maxArrayLength
  then Normal (List.map f (seq 0 (Z.to_nat n)))
  else Throw (newRangeError "Invalid array length").

End Js.

(** ** Grid settings hook ([src/hooks/useGridSettings.ts]) *)

Module GridSettingsHook.
Import Js.

Record GridSettings := mkGridSettings {
  upperLimit : float;
  lowerLimit : float;
  gridNumber : float;
  initialInvestment : float;
  stopLoss : float;
  takeProfitLevel : float
}.

(** [Partial<GridSettings>]: [None] is an absent key. *)
Record PartialGridSettings := mkPartial {
  p_upperLimit : option float;
  p_lowerLimit : option float;
  p_gridNumber : option float;
  p_initialInvestment : option float;
  p_stopLoss : option float;
  p_takeProfitLevel : option float
}.

Definition emptyPartial : PartialGridSettings :=
  mkPartial None None None None None None.

Definition defaultSettings : GridSettings :=
  mkGridSettings 30000 25000 10 1000 24000 31000.

(** Object spread [{ ...prev, ...newSettings }]. *)
Definition spread (prev : GridSettings) (newSettings : PartialGridSettings)
  : GridSettings :=
  {| upperLimit := default (upperLimit prev) (p_upperLimit newSettings);
     lowerLimit := default (lowerLimit prev) (p_lowerLimit newSettings);
     gridNumber := default (gridNumber prev) (p_gridNumber newSettings);
     initialInvestment :=
       default (initialInvestment prev) (p_initialInvestment newSettings);
     stopLoss := default (stopLoss prev) (p_stopLoss newSettings);
     takeProfitLevel :=
       default (takeProfitLevel prev) (p_takeProfitLevel newSettings) |}.

(** The two [useState] cells of the hook. *)
Record HookState := mkHookState {
  settings : GridSettings;
  isDirty : bool
}.

Definition initialState : HookState := mkHookState defaultSettings false.

(** [updateSettings]: merge, mark dirty, store.  There is no other
    branch. *)
Definition updateSettings (newSettings : PartialGridSettings) (st : HookState)
  : HookState :=
  let updated := spread (settings st) newSettings in
  {| settings := updated; isDirty := true |}.

Definition calculateGridInterval (s : GridSettings) : float :=
  ((upperLimit s - lowerLimit s) / gridNumber s)%float.

(** [calculateGridLines]: the interval is computed once, level [i] is
    [lowerLimit + interval * i]. *)
Definition calculateGridLines (s : GridSettings) : completion (list float) :=
  let interval := ((upperLimit s - lowerLimit s) / gridNumber s)%float in
  ArrayFrom (gridNumber s + 1)%float
            (fun i => (lowerLimit s + interval * ofNat i)%float).

(** The validity condition of the specification, as the comparisons
    JavaScript would perform. *)
Definition validConfiguration (s : GridSettings) : bool :=
  (lowerLimit s <? upperLimit s)%float && (1 <=? gridNumber s)%float.

(** Strictly increasing under the float order. *)
Fixpoint strictlyIncreasing (l : list float) : bool :=
  match l with
  | [] => true
  | x :: tl =>
      match tl with
      | [] => true
      | y :: _ => (x <? y)%float && strictlyIncreasing tl
      end
  end.

(** Sample inputs: a price range in the tenths (an XRP-sized price) with
    37 grids, an update that sets the grid count to zero, and an update
    that inverts the range. *)
Local Set Warnings "-inexact-float".

Definition xrpSettings : GridSettings :=
  mkGridSettings 0.7 0.1 37 1000 0.05 0.8.

(** A range two units wide at a magnitude where adjacent numbers are two
    units apart. *)
Definition hugeSettings : GridSettings :=
  mkGridSettings 10000000000000002 10000000000000000 10 1000 0 0.

(** The default range with 2^32 - 1 grids. *)
Definition manyGrids : GridSettings :=
  mkGridSettings 30000 25000 4294967295 1000 24000 31000.

Definition zeroGrids : PartialGridSettings :=
  mkPartial None None (Some 0%float) None None None.

Definition invertedRange : PartialGridSettings :=
  mkPartial (Some 25000%float) (Some 30000%float) None None None None.

End GridSettingsHook.

(** ** SHA-256 and HMAC (FIPS 180-4, RFC 2104)

    Both signing paths delegate to the platform's HMAC-SHA256
    ([crypto.subtle.sign] in the browser, [crypto.createHmac] in Node).
    The function those primitives compute is defined here on byte lists;
    32-bit words are integers reduced modulo 2^32. *)

Module Sha256.

Definition Z_of_byte (b : Byte.byte) : Z := Z.of_N (Byte.to_N b).

Definition byte_of_Z (z : Z) : Byte.byte :=
  match Byte.of_N (Z.to_N (z mod 256)) with
  | Some b => b
  | None => Byte.x00
  end.

Definition add32 (a b : Z) : Z := (a + b) mod 2 ^ 32.

Definition rotr (n x : Z) : Z :=
  Z.lor (Z.shiftr x n) (Z.shiftl x (32 - n) mod 2 ^ 32).

Definition Ch (x y z : Z) : Z := Z.lxor (Z.land x y) (Z.land (Z.lnot x) z).
Definition Maj (x y z : Z) : Z :=
  Z.lxor (Z.lxor (Z.land x y) (Z.land x z)) (Z.land y z).
Definition bsig0 (x : Z) : Z := Z.lxor (Z.lxor (rotr 2 x) (rotr 13 x)) (rotr 22 x).
Definition bsig1 (x : Z) : Z := Z.lxor (Z.lxor (rotr 6 x) (rotr 11 x)) (rotr 25 x).
Definition ssig0 (x : Z) : Z := Z.lxor (Z.lxor (rotr 7 x) (rotr 18 x)) (Z.shiftr x 3).
Definition ssig1 (x : Z) : Z := Z.lxor (Z.lxor (rotr 17 x) (rotr 19 x)) (Z.shiftr x 10).

(** The round constants are the first 32 bits of the fractional parts of
    the cube roots of the first 64 primes, the initial hash value those
    of the square roots of the first 8 primes. *)
Definition isPrime (n : Z) : bool :=
  (1 <? n) && forallb (fun d => negb (n mod d =? 0))
                      (List.map Z.of_nat (seq 2 (Z.to_nat n - 2))).

Definition firstPrimes (count : nat) : list Z :=
  firstn count (List.filter isPrime (List.map Z.of_nat (seq 2 320))).

(** Largest [r] below [2 ^ bits] with [r ^ 3 <= n], one bit at a time. *)
Fixpoint cubeRoot (bits : nat) (n r : Z) : Z :=
  match bits with
  | O => r
  | S k =>
      let r' := r + 2 ^ Z.of_nat k in
      cubeRoot k n (if r' * r' * r' <=? n then r' else r)
  end.

Definition K : list Z :=
  Eval vm_compute in
    List.map (fun p => cubeRoot 40 (p * 2 ^ 96) 0 mod 2 ^ 32) (firstPrimes 64).

Record state := mkState {
  ha : Z; hb : Z; hc : Z; hd : Z; he : Z; hf : Z; hg : Z; hh : Z
}.

Definition initialWords : list Z :=
  Eval vm_compute in
    List.map (fun p => Z.sqrt (p * 2 ^ 64) mod 2 ^ 32) (firstPrimes 8).

Definition H0 : state :=
  match initialWords with
  | [a; b; c; d; e; f; g; h] => mkState a b c d e f g h
  | _ => mkState 0 0 0 0 0 0 0 0
  end.

(** Padding: a [0x80] byte, zeros up to 56 modulo 64, then the bit length
    as a 64-bit big-endian integer. *)
Definition be_bytes (n : nat) (x : Z) : list Z :=
  List.map (fun i => Z.shiftr x (8 * Z.of_nat (n - 1 - i)) mod 256) (seq 0 n).

Definition pad (msg : list Z) : list Z :=
  let len := Z.of_nat (length msg) in
  msg ++ [0x80] ++ repeat 0 (Z.to_nat ((55 - len) mod 64)) ++ be_bytes 8 (8 * len).

Fixpoint words_of_bytes (l : list Z) : list Z :=
  match l with
  | b0 :: b1 :: b2 :: b3 :: tl =>
      (b0 * 2 ^ 24 + b1 * 2 ^ 16 + b2 * 2 ^ 8 + b3) :: words_of_bytes tl
  | _ => []
  end.

(** Message schedule, most recent word first. *)
Fixpoint extend (n : nat) (rw : list Z) : list Z :=
  match n with
  | O => rw
  | S n' =>
      let w := add32 (add32 (ssig1 (nth 1 rw 0)) (nth 6 rw 0))
                     (add32 (ssig0 (nth 14 rw 0)) (nth 15 rw 0)) in
      extend n' (w :: rw)
  end.

Definition schedule (block : list Z) : list Z := rev (extend 48 (rev block)).

Definition round (s : state) (kw : Z * Z) : state :=
  let t1 := add32 (add32 (add32 (hh s) (bsig1 (he s)))
                         (add32 (Ch (he s) (hf s) (hg s)) (fst kw))) (snd kw) in
  let t2 := add32 (bsig0 (ha s)) (Maj (ha s) (hb s) (hc s)) in
  mkState (add32 t1 t2) (ha s) (hb s) (hc s) (add32 (hd s) t1) (he s) (hf s) (hg s).

Definition compress (s : state) (block : list Z) : state :=
  let r := fold_left round (combine K (schedule block)) s in
  mkState (add32 (ha s) (ha r)) (add32 (hb s) (hb r)) (add32 (hc s) (hc r))
          (add32 (hd s) (hd r)) (add32 (he s) (he r)) (add32 (hf s) (hf r))
          (add32 (hg s) (hg r)) (add32 (hh s) (hh r)).

Fixpoint process (n : nat) (s : state) (ws : list Z) : state :=
  match n with
  | O => s
  | S n' => process n' (compress s (firstn 16 ws)) (skipn 16 ws)
  end.

Definition digest_bytes (s : state) : list Byte.byte :=
  List.map byte_of_Z
    (flat_map (be_bytes 4)
       [ha s; hb s; hc s; hd s; he s; hf s; hg s; hh s]).

Definition sha256 (msg : list Byte.byte) : list Byte.byte :=
  let ws := words_of_bytes (pad (List.map Z_of_byte msg)) in
  digest_bytes (process (length ws / 16) H0 ws).

(** HMAC with a 64-byte block: a key longer than the block is hashed, the
    key is then padded with zero bytes to the block length. *)
Definition blockSize : nat := 64.

Definition xor_byte (c : Z) (b : Byte.byte) : Byte.byte :=
  byte_of_Z (Z.lxor (Z_of_byte b) c).

Definition block_key (key : list Byte.byte) : list Byte.byte :=
  let k0 := if (blockSize <? length key)%nat then sha256 key else key in
  k0 ++ repeat Byte.x00 (blockSize - length k0).

Definition hmac_sha256 (key msg : list Byte.byte) : list Byte.byte :=
  let kp := block_key key in
  sha256 (List.map (xor_byte 0x5c) kp ++ sha256 (List.map (xor_byte 0x36) kp ++ msg)).

End Sha256.

(** ** Platform functions used for signing

    [TextEncoder.encode] and Node's implicit string-to-buffer conversion
    both produce the UTF-8 bytes of a string; strings here are already
    byte strings, so the conversion is the list of their bytes. *)

Module Platform.
Import Js.

Definition utf8 (s : string) : list Byte.byte := String.list_byte_of_string s.

Definition hexDigit (d : Z) : ascii :=
  nth (Z.to_nat d) (String.list_ascii_of_string "0123456789abcdef") "0"%char.

(** [Number.prototype.toString(16)] on a non-negative integer: the digits
    without leading zeros, ["0"] for zero. *)
Fixpoint toString16_aux (fuel : nat) (n : Z) (acc : string) : string :=
  match fuel with
  | O => acc
  | S fuel' =>
      let acc' := String (hexDigit (n mod 16)) acc in
      if n / 16 =? 0 then acc' else toString16_aux fuel' (n / 16) acc'
  end.

Definition toString16 (n : Z) : string := toString16_aux 14 n "".

(** [String.prototype.padStart(target, fill)] with a one-character fill. *)
Definition padStart (target : nat) (fill : ascii) (s : string) : string :=
  String.string_of_list_ascii (repeat fill (target - String.length s)) +:+ s.

(** [Array.prototype.join('')]. *)
Definition joinEmpty (parts : list string) : string := String.concat "" parts.

(** [crypto.subtle.importKey('raw', keyData, { name: 'HMAC', hash:
    'SHA-256' }, false, ['sign'])]: the Web Cryptography API rejects key
    data of length zero with a [DataError]; any other key is imported as
    it is. *)
Definition importKeyHmac (keyData : list Byte.byte) : completion (list Byte.byte) :=
  match keyData with
  | [] => Throw (mkError "DataError" "HMAC key data must not be empty" None None)
  | _ :: _ => Normal keyData
  end.

(** [crypto.subtle.sign('HMAC', key, data)]. *)
Definition subtleSign (key data : list Byte.byte) : list Byte.byte :=
  Sha256.hmac_sha256 key data.

(** [hmac.digest('hex')] of Node: two lowercase hexadecimal digits per
    byte. *)
Definition hexByte (b : Byte.byte) : string :=
  let z := Sha256.Z_of_byte b in
  String (hexDigit (z / 16)) (String (hexDigit (z mod 16)) "").

Definition digestHex (bytes : list Byte.byte) : string :=
  String.concat "" (List.map hexByte bytes).

(** [crypto.createHmac('sha256', key).update(data).digest('hex')] with
    string arguments. *)
Definition createHmacSha256Hex (key data : string) : string :=
  digestHex (Sha256.hmac_sha256 (utf8 key) (utf8 data)).

Definition isLowerHex (c : ascii) : bool :=
  existsb (Ascii.eqb c) (String.list_ascii_of_string "0123456789abcdef").

End Platform.

(** ** Request signing in the browser *)

Module Signing.
Import Js Platform.

Definition signatureFailed : string := "署名の生成に失敗しました".

(** The [try] block of [BinanceApiClient.generateSignature], the same in
    both versions of the client: encode secret and query string, import
    the key, sign, and write each byte as two hexadecimal digits. *)
Definition browserSign (apiSecret queryString : string) : completion string :=
  let keyData := utf8 apiSecret in
  let messageData := utf8 queryString in
  bind (importKeyHmac keyData) (fun cryptoKey =>
  let signature := subtleSign cryptoKey messageData in
  Normal (joinEmpty
            (List.map (fun b => padStart 2 "0"%char (toString16 (Sha256.Z_of_byte b)))
                      signature))).

End Signing.

(** ** HTTP: requests, responses, the network *)

Module Http.
Import Js.

(** A parsed JSON value. *)
Local Set Warnings "-register-all".

Inductive Json : Type :=
| JNull
| JBool (b : bool)
| JNumber (x : float)
| JString (s : string)
| JArray (items : list Json)
| JObject (fields : list (string * Json)).

(** JavaScript truthiness of a parsed value. *)
Definition truthy (j : Json) : bool :=
  match j with
  | JNull => false
  | JBool b => b
  | JNumber x => negb (x =? 0)%float && negb (isNaN x)
  | JString s => negb (String.eqb s "")
  | JArray _ | JObject _ => true
  end.

(** What the exchange sent back: [json] is [None] when the body is not
    parseable, and [jsonError] is then the message of the [SyntaxError]
    the engine's parser raises for that body (it depends on the body
    and may quote it). *)
Record Response := mkResponse {
  ok : bool;
  status : Z;
  statusText : string;
  text : string;
  json : option Json;
  jsonError : string
}.

(** The second argument of [fetch] (and the matching fields of an axios
    configuration).  [signalTimeout] is [Some ms] when the call is given
    an abort signal fired by a timer of [ms] milliseconds (axios:
    [timeout: ms]), [None] when the call has neither. *)
Record RequestInit := mkInit {
  method : string;
  headers : list (string * string);
  mode : option string;
  credentials : option string;
  signalTimeout : option Z;
  body : option string
}.

Record FetchCall := mkCall {
  url : string;
  init : RequestInit
}.

Inductive FetchOutcome : Type :=
| Resolved (r : Response)
| Rejected (e : Error).

(** The network as seen from one call: it answers with a response, or
    fails, [latency] milliseconds after the call. *)
Inductive Network : Type :=
| Answers (latency : Z) (r : Response)
| Fails (latency : Z) (e : Error).

Definition latencyOf (net : Network) : Z :=
  match net with
  | Answers l _ | Fails l _ => l
  end.

Definition abortError : Error :=
  mkError "AbortError" "The user aborted a request." (Some 20) None.


Definition unaborted (net : Network) : FetchOutcome :=
  match net with
  | Answers _ r => Resolved r
  | Fails _ e => Rejected e
  end.

(** [await fetch(url, init)]: with an armed timer the call is aborted when
    the network has not answered by then. *)
Definition fetch (net : Network) (call : FetchCall) : FetchOutcome :=
  match signalTimeout (init call) with
  | Some ms => if ms <=? latencyOf net then Rejected abortError else unaborted net
  | None => unaborted net
  end.

(** Milliseconds until [fetch] settles. *)
Definition settleTime (net : Network) (call : FetchCall) : Z :=
  match signalTimeout (init call) with
  | Some ms => Z.min ms (latencyOf net)
  | None => latencyOf net
  end.

Definition tryCatch {A} (body : completion A) (handler : Error -> completion A)
  : completion A :=
  match body with
  | Normal a => Normal a
  | Throw e => handler e
  end.

Definition await (o : FetchOutcome) : completion Response :=
  match o with
  | Resolved r => Normal r
  | Rejected e => Throw e
  end.

(** [await response.json()]. *)
Definition responseJson (r : Response) : completion Json :=
  match json r with
  | Some data => Normal data
  | None => Throw (mkError "SyntaxError" (jsonError r) None None)
  end.

(** [haystack.includes(needle)]. *)
Fixpoint includes (needle haystack : string) : bool :=
  String.prefix needle haystack ||
  match haystack with
  | EmptyString => false
  | String _ rest => includes needle rest
  end.

(** Object literal [{ ...params, key: value }] on an insertion-ordered
    list of string properties: an existing key keeps its place. *)
Fixpoint objectSet (key value : string) (o : list (string * string))
  : list (string * string) :=
  match o with
  | [] => [(key, value)]
  | (k, v) :: rest =>
      if String.eqb k key then (k, value) :: rest
      else (k, v) :: objectSet key value rest
  end.

(** [URLSearchParams.toString()]: the application/x-www-form-urlencoded
    serializer. *)
Definition formUnreserved (c : ascii) : bool :=
  let n := N_of_ascii c in
  ((48 <=? n) && (n <=? 57) || (65 <=? n) && (n <=? 90) ||
   (97 <=? n) && (n <=? 122) ||
   (n =? 42) || (n =? 45) || (n =? 46) || (n =? 95))%N.

Definition upperHexDigit (d : N) : ascii :=
  nth (N.to_nat d) (String.list_ascii_of_string "0123456789ABCDEF") "0"%char.

Fixpoint formEncode (s : string) : string :=
  match s with
  | EmptyString => EmptyString
  | String c rest =>
      if formUnreserved c then String c (formEncode rest)
      else if Ascii.eqb c " "%char then String "+"%char (formEncode rest)
      else
        let n := N_of_ascii c in
        String "%"%char
          (String (upperHexDigit (n / 16))
             (String (upperHexDigit (n mod 16)) (formEncode rest)))
  end.

Definition urlSearchParams (o : list (string * string)) : string :=
  String.concat "&"
    (List.map (fun kv => formEncode (fst kv) +:+ "=" +:+ formEncode (snd kv)) o).

End Http.

(** ** The signing client ([src/services/binanceApi.ts]) *)

Module DirectClient.
Import Js Http.

Definition TEST_API_BASE_URL : string := "https://testnet.binance.vision/api/v3".
Definition MAIN_API_BASE_URL : string := "https://api.binance.com/api/v3".

Record BinanceConfig := mkConfig {
  cfgApiKey : string;
  cfgApiSecret : string;
  cfgTestMode : bool
}.

Record BinanceApiClient := mkClient {
  apiKey : string;
  apiSecret : string;
  baseUrl : string
}.

Definition new (config : BinanceConfig) : BinanceApiClient :=
  {| apiKey := cfgApiKey config;
     apiSecret := cfgApiSecret config;
     baseUrl := if cfgTestMode config then TEST_API_BASE_URL else MAIN_API_BASE_URL |}.

Definition timeoutMessage : string := "リクエストがタイムアウトしました".
Definition corsMessage : string :=
  "ネットワーク接続エラーが発生しました。インターネット接続とCORS設定を確認してください。".
Definition networkMessage : string :=
  "ネットワーク接続エラーが発生しました。インターネット接続を確認してください。".
Definition requestFailed : string := "APIリクエストに失敗しました".
Definition priceFailed : string := "価格の取得に失敗しました".

(** [generateSignature]: the secret is the client's [apiSecret] field
    (passed by the callers below); any failure inside the [try] is
    replaced by a fixed [Error]. *)
Definition generateSignature (apiSecret queryString : string) : completion string :=
  match Signing.browserSign apiSecret queryString with
  | Normal sig => Normal sig
  | Throw _ => Throw (newError Signing.signatureFailed)
  end.

(** [`${x}`] of an optional string property. *)
Definition showOptional (o : option string) : string := default "undefined" o.

(** [handleError]: every value thrown in this model is an [Error], so the
    [instanceof Error] test holds and [defaultMessage] is never used. *)
Definition handleError (error : Error) (defaultMessage : string) : Error :=
  let withoutCode :=
    if includes "Failed to fetch" (message error) then newError networkMessage
    else error in
  match code error with
  | Some c =>
      if c =? 0 then withoutCode
      else newError ("Binance APIエラー (" +:+ pretty c +:+ "): "
                     +:+ showOptional (msg error))
  | None => withoutCode
  end.

(** The request [makeRequest] builds: timestamp appended to the
    parameters, the query string signed, the signature appended, the key
    sent as a header, and a 10-second abort timer. *)
Definition makeRequestCall (c : BinanceApiClient) (endpoint : string)
    (params : list (string * string)) (now : Z) : completion FetchCall :=
  let timestamp := pretty now in
  let queryString := urlSearchParams (objectSet "timestamp" timestamp params) in
  bind (generateSignature (apiSecret c) queryString) (fun signature =>
  Normal {| url := baseUrl c +:+ endpoint +:+ "?" +:+ queryString
                   +:+ "&signature=" +:+ signature;
            init := {| method := "GET";
                       headers := [("X-MBX-APIKEY", apiKey c)];
                       mode := Some "cors";
                       credentials := Some "omit";
                       signalTimeout := Some 10000;
                       body := None |} |}).

(** The inner [try]/[catch] of [makeRequest]. *)
Definition readResponse (o : FetchOutcome) : completion Json :=
  tryCatch
    (bind (await o) (fun response =>
       if negb (ok response) then
         Throw (newError ("APIリクエストが失敗しました (" +:+ pretty (status response)
                          +:+ "): " +:+ text response))
       else responseJson response))
    (fun error =>
       if String.eqb (name error) "AbortError" then Throw (newError timeoutMessage)
       else if String.eqb (name error) "TypeError"
               && includes "Failed to fetch" (message error)
       then Throw (newError corsMessage)
       else Throw error).

Definition makeRequest (c : BinanceApiClient) (endpoint : string)
    (params : list (string * string)) (now : Z) (net : Network) : completion Json :=
  tryCatch
    (bind (makeRequestCall c endpoint params now) (fun call =>
       readResponse (fetch net call)))
    (fun error => Throw (handleError error requestFailed)).

(** The request [validateCredentials] builds: no abort signal. *)
Definition validateCredentialsCall (c : BinanceApiClient) (now : Z)
  : completion FetchCall :=
  let timestamp := pretty now in
  let queryString := "timestamp=" +:+ timestamp in
  bind (generateSignature (apiSecret c) queryString) (fun signature =>
  Normal {| url := baseUrl c +:+ "/account?" +:+ queryString
                   +:+ "&signature=" +:+ signature;
            init := {| method := "GET";
                       headers := [("X-MBX-APIKEY", apiKey c)];
                       mode := None;
                       credentials := None;
                       signalTimeout := None;
                       body := None |} |}).

Definition validateCredentials (c : BinanceApiClient) (now : Z) (net : Network)
  : completion bool :=
  tryCatch
    (bind (validateCredentialsCall c now) (fun call =>
     bind (await (fetch net call)) (fun response =>
       if negb (ok response) then Normal false
       else bind (responseJson response) (fun _ => Normal true))))
    (fun _ => Normal false).

(** The request issued by [getAccountBalance]: [makeRequest('/account')]. *)
Definition accountRequestCall (c : BinanceApiClient) (now : Z) : completion FetchCall :=
  makeRequestCall c "/account" [] now.

(** The request issued by [getCurrentPrice(symbol)]. *)
Definition getCurrentPriceCall (c : BinanceApiClient) (symbol : string) (now : Z)
  : completion FetchCall :=
  makeRequestCall c "/ticker/price" [("symbol", symbol)] now.

Section PriceValue.
(** [parseFloat(data.price)] on a parsed body, as evaluated by the
    JavaScript engine. *)
Variable parseFloatPrice : Json -> completion float.

Definition getCurrentPrice (c : BinanceApiClient) (symbol : string) (now : Z)
    (net : Network) : completion float :=
  tryCatch
    (bind (makeRequest c "/ticker/price" [("symbol", symbol)] now net)
          parseFloatPrice)
    (fun error => Throw (handleError error priceFailed)).
End PriceValue.

End DirectClient.

(** ** The second client (the version of [services/binanceApi] with the
    named export that [App.tsx] imports; its [makeRequest] does not sign) *)

Module ProxyClient.
Import Js Http.

Record BinanceApiClient := mkClient {
  apiKey : string;
  apiSecret : string;
  baseUrl : string
}.

Definition new (config : DirectClient.BinanceConfig) : BinanceApiClient :=
  {| apiKey := DirectClient.cfgApiKey config;
     apiSecret := DirectClient.cfgApiSecret config;
     baseUrl := if DirectClient.cfgTestMode config
                then DirectClient.TEST_API_BASE_URL
                else DirectClient.MAIN_API_BASE_URL |}.

(** [generateSignature]: as in the signing client, but the replacement
    error carries the message of the caught one. *)
Definition generateSignature (apiSecret queryString : string) : completion string :=
  match Signing.browserSign apiSecret queryString with
  | Normal sig => Normal sig
  | Throw e =>
      Throw (newError (Signing.signatureFailed +:+ ": " +:+ message e))
  end.

Inductive Side := BUY | SELL.

Definition sideName (s : Side) : string :=
  match s with BUY => "BUY" | SELL => "SELL" end.

Record OrderParams := mkOrderParams {
  symbol : string;
  side : Side;
  type : string;
  quantity : string;
  price : option string
}.

(** [JSON.stringify] of a string: quotes, backslashes and control
    characters are escaped. *)
Definition doubleQuote : ascii := "034"%char.

Definition lowerHexDigit (d : N) : ascii :=
  nth (N.to_nat d) (String.list_ascii_of_string "0123456789abcdef") "0"%char.

Fixpoint jsonEscape (s : string) : string :=
  match s with
  | EmptyString => EmptyString
  | String c rest =>
      let n := N_of_ascii c in
      let tail := jsonEscape rest in
      if (n =? 34)%N then String "\"%char (String doubleQuote tail)
      else if (n =? 92)%N then String "\"%char (String "\"%char tail)
      else if (n =? 8)%N then String "\"%char (String "b"%char tail)
      else if (n =? 12)%N then String "\"%char (String "f"%char tail)
      else if (n =? 10)%N then String "\"%char (String "n"%char tail)
      else if (n =? 13)%N then String "\"%char (String "r"%char tail)
      else if (n =? 9)%N then String "\"%char (String "t"%char tail)
      else if (n <? 32)%N then
        "\u00" +:+ String (lowerHexDigit (n / 16)) (String (lowerHexDigit (n mod 16)) tail)
      else String c tail
  end.

Definition jsonQuote (s : string) : string :=
  String doubleQuote (jsonEscape s +:+ String doubleQuote "").

Definition jsonMember (key value : string) : string :=
  jsonQuote key +:+ ":" +:+ value.

Definition stringifyOrderParams (o : OrderParams) : string :=
  "{" +:+ String.concat ","
            ([jsonMember "symbol" (jsonQuote (symbol o));
              jsonMember "side" (jsonQuote (sideName (side o)));
              jsonMember "type" (jsonQuote (type o));
              jsonMember "quantity" (jsonQuote (quantity o))]
             ++ match price o with
                | Some p => [jsonMember "price" (jsonQuote p)]
                | None => []
                end)
      +:+ "}".

(** The request [makeRequest(endpoint, method, body)] builds: no
    signature, no key header, no abort signal. *)
Definition makeRequestCall (c : BinanceApiClient) (endpoint method : string)
    (body : option OrderParams) : FetchCall :=
  {| url := baseUrl c +:+ endpoint;
     init := {| Http.method := method;
                headers := [("Content-Type", "application/json")];
                mode := None;
                credentials := Some "include";
                signalTimeout := None;
                Http.body := option_map stringifyOrderParams body |} |}.

Definition makeRequest (c : BinanceApiClient) (endpoint method : string)
    (body : option OrderParams) (net : Network) : completion Json :=
  tryCatch
    (bind (await (fetch net (makeRequestCall c endpoint method body)))
       (fun response =>
          if negb (ok response) then
            Throw (newError ("HTTP error! status: " +:+ pretty (status response)))
          else responseJson response))
    (fun error => Throw error).

Definition validateCredentialsCall (c : BinanceApiClient) (now : Z)
  : completion FetchCall :=
  let timestamp := pretty now in
  let queryString := "timestamp=" +:+ timestamp in
  bind (generateSignature (apiSecret c) queryString) (fun signature =>
  Normal {| url := baseUrl c +:+ "/account?" +:+ queryString
                   +:+ "&signature=" +:+ signature;
            init := {| Http.method := "GET";
                       headers := [("X-MBX-APIKEY", apiKey c)];
                       mode := None;
                       credentials := None;
                       signalTimeout := None;
                       Http.body := None |} |}).

Definition validateCredentials (c : BinanceApiClient) (now : Z) (net : Network)
  : completion bool :=
  tryCatch
    (bind (validateCredentialsCall c now) (fun call =>
     bind (await (fetch net call)) (fun response =>
       if negb (ok response) then Normal false
       else bind (responseJson response) (fun _ => Normal true))))
    (fun _ => Normal false).

Definition getCurrentPriceCall (c : BinanceApiClient) (symbol : string) : FetchCall :=
  makeRequestCall c ("/ticker?symbol=" +:+ symbol) "GET" None.

Definition getCurrentPrice (c : BinanceApiClient) (symbol : string) (net : Network)
  : completion Json :=
  tryCatch (makeRequest c ("/ticker?symbol=" +:+ symbol) "GET" None net)
           (fun error => Throw error).

Definition getAccountBalanceCall (c : BinanceApiClient) : FetchCall :=
  makeRequestCall c "/balance" "GET" None.

Definition createOrderCall (c : BinanceApiClient) (orderParams : OrderParams)
  : FetchCall :=
  makeRequestCall c "/orders" "POST" (Some orderParams).

Definition createOrder (c : BinanceApiClient) (orderParams : OrderParams)
    (net : Network) : completion Json :=
  tryCatch (makeRequest c "/orders" "POST" (Some orderParams) net)
           (fun error => Throw error).

Definition cancelOrderCall (c : BinanceApiClient) (symbol : string) (orderId : Z)
  : FetchCall :=
  makeRequestCall c ("/orders/" +:+ pretty orderId +:+ "?symbol=" +:+ symbol)
                  "DELETE" None.

Definition cancelOrder (c : BinanceApiClient) (symbol : string) (orderId : Z)
    (net : Network) : completion Json :=
  tryCatch (makeRequest c ("/orders/" +:+ pretty orderId +:+ "?symbol=" +:+ symbol)
                        "DELETE" None net)
           (fun error => Throw error).

End ProxyClient.

(** ** The proxy server ([server.js]) *)

Module ProxyServer.
Import Js Http.

Local Set Warnings "-register-all".

Definition BINANCE_API_URL : string := "https://api.binance.com".

(** axios: a status outside 2xx rejects with the response attached, a
    network failure or an expired [timeout] rejects without one. *)
Inductive AxiosOutcome : Type :=
| AxiosResolved (r : Response)
| AxiosRejected (response : option Response) (message : string).

Definition axiosSettled (net : Network) : AxiosOutcome :=
  match net with
  | Answers _ r =>
      if (200 <=? status r) && (status r <? 300) then AxiosResolved r
      else AxiosRejected (Some r)
             ("Request failed with status code " +:+ pretty (status r))
  | Fails _ e => AxiosRejected None (message e)
  end.

Definition axios (net : Network) (call : FetchCall) : AxiosOutcome :=
  match signalTimeout (init call) with
  | Some ms =>
      if ms <=? latencyOf net
      then AxiosRejected None ("timeout of " +:+ pretty ms +:+ "ms exceeded")
      else axiosSettled net
  | None => axiosSettled net
  end.

(** [response.data]: the parsed body, or the text when it is not JSON. *)
Definition dataOf (r : Response) : Json :=
  match json r with
  | Some j => j
  | None => JString (text r)
  end.

Inductive ReplyBody : Type :=
| Data (data : Json)
| ErrorBody (error : string) (details : option Json).

Record ServerReply := mkReply {
  replyStatus : Z;
  replyBody : ReplyBody
}.

(** [error.response?.status || 500] and
    [error.response?.data || error.message]. *)
Definition errorStatus (response : option Response) : Z :=
  match response with
  | Some r => if status r =? 0 then 500 else status r
  | None => 500
  end.

Definition errorDetails (response : option Response) (message : string) : Json :=
  match response with
  | Some r => if truthy (dataOf r) then dataOf r else JString message
  | None => JString message
  end.

Definition errorReply (label : string) (response : option Response)
    (message : string) : ServerReply :=
  {| replyStatus := errorStatus response;
     replyBody := ErrorBody label (Some (errorDetails response message)) |}.

(** [generateSignature(queryString, apiSecret)]. *)
Definition generateSignature (queryString apiSecret : string) : string :=
  Platform.createHmacSha256Hex apiSecret queryString.

(** A member of [req.query]: the text of a parameter, an array when the
    parameter is repeated ([?a=1&a=2]), an object when it is written
    with brackets ([?a[b]=1]). *)
Inductive QueryValue : Type :=
| QString (s : string)
| QArray (items : list QueryValue)
| QObject (fields : list (string * QueryValue)).

(** [!value] is false: every array and object is truthy, a text is
    truthy unless empty, a missing member is [undefined]. *)
Definition present (value : option QueryValue) : bool :=
  match value with
  | Some (QString s) => negb (String.eqb s "")
  | Some _ => true
  | None => false
  end.

(** [String(value)]. *)
Fixpoint toText (value : QueryValue) : string :=
  match value with
  | QString s => s
  | QArray items => String.concat "," (List.map toText items)
  | QObject _ => "[object Object]"
  end.

(** The header lines written for [{ 'X-MBX-APIKEY': apiKey }]: one line
    per item for an array, one line with the value's text otherwise. *)
Definition keyHeaders (apiKey : QueryValue) : list (string * string) :=
  match apiKey with
  | QArray items => List.map (fun item => ("X-MBX-APIKEY", toText item)) items
  | _ => [("X-MBX-APIKEY", toText apiKey)]
  end.

(** The exchange request of [GET /api/balance], given the header lines
    of the key. *)
Definition balanceRequest (keyLines : list (string * string))
    (apiSecret : string) (now : Z) : FetchCall :=
  let timestamp := pretty now in
  let queryString := "timestamp=" +:+ timestamp in
  let signature := generateSignature queryString apiSecret in
  {| url := BINANCE_API_URL +:+ "/api/v3/account?" +:+ queryString
            +:+ "&signature=" +:+ signature;
     init := {| method := "get";
                headers := keyLines ++ [("User-Agent", "Mozilla/5.0");
                                        ("Accept", "application/json")];
                mode := None;
                credentials := None;
                signalTimeout := Some 10000;
                body := None |} |}.


Definition missingCredentials : ServerReply :=
  {| replyStatus := 400;
     replyBody := ErrorBody "API KeyとSecretが必要です" None |}.

Section Routes.
(** The message of the [TypeError] that [crypto.createHmac] raises for a
    key that is no text, as the runtime words it. *)
Variable invalidKeyMessage : QueryValue -> string.

(** [app.get('/api/balance', ...)]: [query] is [req.query].  A secret
    that is an array or an object passes the guard and makes
    [generateSignature] throw inside the [try]: the [catch] answers
    without a call to the exchange. *)
Definition balanceHandler (query : gmap string QueryValue) (now : Z)
    (net : Network) : ServerReply :=
  match query !! "apiKey", query !! "apiSecret" with
  | Some apiKey, Some apiSecret =>
      if negb (present (Some apiKey)) || negb (present (Some apiSecret))
      then missingCredentials
      else
        match apiSecret with
        | QString secret =>
            match axios net (balanceRequest (keyHeaders apiKey) secret now) with
            | AxiosResolved r =>
                {| replyStatus := 200; replyBody := Data (dataOf r) |}
            | AxiosRejected response message =>
                errorReply "Binance APIエラー" response message
            end
        | _ => errorReply "Binance APIエラー" None (invalidKeyMessage apiSecret)
        end
  | _, _ => missingCredentials
  end.
End Routes.

(** The exchange request of [GET /api/price/:symbol]. *)
Definition priceUpstreamCall (symbol : string) : FetchCall :=
  {| url := BINANCE_API_URL +:+ "/api/v3/ticker/price?symbol=" +:+ symbol;
     init := {| method := "get";
                headers := [("Accept", "application/json")];
                mode := None;
                credentials := None;
                signalTimeout := Some 5000;
                body := None |} |}.

Definition priceHandler (symbol : string) (net : Network) : ServerReply :=
  match axios net (priceUpstreamCall symbol) with
  | AxiosResolved r => {| replyStatus := 200; replyBody := Data (dataOf r) |}
  | AxiosRejected response message =>
      errorReply "価格取得に失敗しました" response message
  end.

End ProxyServer.

(** ** The application component ([src/App.tsx]) *)

Module App.
Import Js Http.

Record Order := mkOrder {
  id : Z;
  type : string;
  price : float;
  amount : float;
  status : option string
}.

Record ApiSettings := mkApiSettings {
  exchange : string;
  apiKey : string;
  apiSecret : string;
  testMode : bool
}.

(** One sample of the chart: [time] is the instant (milliseconds) whose
    ISO text the source stores. *)
Record PriceData := mkPriceData {
  time : Z;
  samplePrice : float
}.

(** The state cells of [GridTradingSystem] that the modelled handlers
    read or write, the grid-settings hook, and the browser's
    [localStorage]. *)
Record State := mkState {
  priceHistory : list PriceData;
  activeOrders : list Order;
  completedOrders : list Order;
  isRunning : bool;
  apiSettings : ApiSettings;
  binanceClient : option ProxyClient.BinanceApiClient;
  showApiSettings : bool;
  isLoading : bool;
  lastUpdated : option Z;
  gridSettings : GridSettingsHook.HookState;
  localStorage : gmap string string
}.

(** Methods of the exchange client a handler may call. *)
Inductive ClientCall : Type :=
| CallValidateCredentials (c : ProxyClient.BinanceApiClient)
| CallGetAccountBalance (c : ProxyClient.BinanceApiClient)
| CallGetCurrentPrice (c : ProxyClient.BinanceApiClient) (symbol : string)
| CallCreateOrder (c : ProxyClient.BinanceApiClient) (params : ProxyClient.OrderParams)
| CallCancelOrder (c : ProxyClient.BinanceApiClient) (symbol : string) (orderId : Z).

(** What a handler does besides updating the state. *)
Inductive Effect : Type :=
| Alert (message : string)
| Call (call : ClientCall).

(** An order intent: a request to place or to cancel an order. *)
Definition isOrderIntent (e : Effect) : bool :=
  match e with
  | Call (CallCreateOrder _ _) | Call (CallCancelOrder _ _ _) => true
  | _ => false
  end.

Definition noOrderIntent (out : list Effect) : bool :=
  forallb (fun e => negb (isOrderIntent e)) out.

Definition isCancelOf (orderId : Z) (e : Effect) : bool :=
  match e with
  | Call (CallCancelOrder _ _ i) => i =? orderId
  | _ => false
  end.

Definition setIsRunning (b : bool) (s : State) : State :=
  mkState (priceHistory s) (activeOrders s) (completedOrders s) b (apiSettings s)
          (binanceClient s) (showApiSettings s) (isLoading s) (lastUpdated s)
          (gridSettings s) (localStorage s).

Definition setPriceHistory (data : list PriceData) (now : Z) (s : State) : State :=
  mkState data (activeOrders s) (completedOrders s) (isRunning s) (apiSettings s)
          (binanceClient s) (showApiSettings s) false (Some now)
          (gridSettings s) (localStorage s).

Definition setItem (key value : string) (s : State) : State :=
  mkState (priceHistory s) (activeOrders s) (completedOrders s) (isRunning s)
          (apiSettings s) (binanceClient s) (showApiSettings s) (isLoading s)
          (lastUpdated s) (gridSettings s) (<[key := value]> (localStorage s)).

Definition setBinanceClient (c : ProxyClient.BinanceApiClient) (s : State) : State :=
  mkState (priceHistory s) (activeOrders s) (completedOrders s) (isRunning s)
          (apiSettings s) (Some c) (showApiSettings s) (isLoading s)
          (lastUpdated s) (gridSettings s) (localStorage s).

Definition setShowApiSettings (b : bool) (s : State) : State :=
  mkState (priceHistory s) (activeOrders s) (completedOrders s) (isRunning s)
          (apiSettings s) (binanceClient s) b (isLoading s)
          (lastUpdated s) (gridSettings s) (localStorage s).

(** [toggleBotStatus]. *)
Definition toggleBotStatus (s : State) : State * list Effect :=
  (setIsRunning (negb (isRunning s)) s, []).

(** The [onClick] of the emergency-stop button. *)
Definition emergencyStopMessage : string :=
  "緊急停止しました。すべての注文がキャンセルされました。".

Definition emergencyStop (s : State) : State * list Effect :=
  (setIsRunning false s, [Alert emergencyStopMessage]).

(** [fetchPriceData]: 100 samples of a random walk from 27500, ten
    minutes apart; [randoms] are the values of [Math.random()]. *)
Fixpoint samplePrices (now : Z) (i : nat) (price : float) (randoms : list float)
  : list PriceData :=
  match randoms with
  | [] => []
  | r :: rest =>
      let price' := (price + (r - 0.5) * 200)%float in
      mkPriceData (now - (100 - Z.of_nat i) * 600000) price'
        :: samplePrices now (S i) price' rest
  end.

Definition fetchPriceData (now : Z) (randoms : list float) (s : State)
  : State * list Effect :=
  (setPriceHistory (samplePrices now 0 27500 (firstn 100 randoms)) now s, []).

(** [JSON.stringify(apiSettings)]. *)
Definition stringifyApiSettings (a : ApiSettings) : string :=
  "{" +:+ String.concat ","
            [ProxyClient.jsonMember "exchange" (ProxyClient.jsonQuote (exchange a));
             ProxyClient.jsonMember "apiKey" (ProxyClient.jsonQuote (apiKey a));
             ProxyClient.jsonMember "apiSecret" (ProxyClient.jsonQuote (apiSecret a));
             ProxyClient.jsonMember "testMode" (if testMode a then "true" else "false")]
      +:+ "}".

(** The [onClick] of the "save permanently" button of the API form. *)
Definition savePermanently (s : State) : State * list Effect :=
  let a := apiSettings s in
  if negb (String.eqb (apiKey a) "") && negb (String.eqb (apiSecret a) "") then
    (setShowApiSettings false
       (setItem "gridBotApiSettings" (stringifyApiSettings a) s),
     [Alert "API設定を永続的に保存しました"])
  else (s, [Alert "APIキーとシークレットを入力してください"]).

(** [handleApiSettingsSave]. *)
Definition invalidCredentials : string := "APIキーまたはシークレットが無効です".

Definition handleApiSettingsSave (now : Z) (net : Network) (s : State)
  : State * list Effect :=
  let a := apiSettings s in
  let client :=
    ProxyClient.new (DirectClient.mkConfig (apiKey a) (apiSecret a) (testMode a)) in
  match
    bind (ProxyClient.validateCredentials client now net) (fun isValid =>
      if negb isValid then Throw (newError invalidCredentials)
      else Normal tt)
  with
  | Normal _ =>
      (setBinanceClient client
         (setItem "binanceTestMode" (if testMode a then "true" else "false")
            (setItem "binanceApiSecret" (apiSecret a)
               (setItem "binanceApiKey" (apiKey a) s))),
       [Call (CallValidateCredentials client); Alert "API設定が保存されました"])
  | Throw error =>
      (s, [Call (CallValidateCredentials client);
           Alert ("API設定エラー: " +:+ message error)])
  end.

(** The user and timer events the handlers above answer.  The
    emergency-stop button is rendered only while [isRunning] holds. *)
Inductive Event : Type :=
| ClickStartStop
| ClickEmergencyStop
| PriceTimer (now : Z) (randoms : list float)
| ClickSavePermanently
| SaveApiSettings (now : Z) (net : Network).

Definition step (e : Event) (s : State) : State * list Effect :=
  match e with
  | ClickStartStop => toggleBotStatus s
  | ClickEmergencyStop => if isRunning s then emergencyStop s else (s, [])
  | PriceTimer now randoms => fetchPriceData now randoms s
  | ClickSavePermanently => savePermanently s
  | SaveApiSettings now net => handleApiSettingsSave now net s
  end.

Fixpoint run (events : list Event) (s : State) : State * list Effect :=
  match events with
  | [] => (s, [])
  | e :: rest =>
      let '(s1, out1) := step e s in
      let '(s2, out2) := run rest s1 in
      (s2, out1 ++ out2)
  end.

(** The component after mounting with an empty [localStorage]. *)
Definition initialState : State :=
  {| priceHistory := [];
     activeOrders := [];
     completedOrders := [];
     isRunning := false;
     apiSettings := mkApiSettings "binance" "" "" true;
     binanceClient := None;
     showApiSettings := false;
     isLoading := false;
     lastUpdated := None;
     gridSettings := GridSettingsHook.initialState;
     localStorage := ∅ |}.

End App.

(** ** Order ledger *)

Module OrderLedger.

(** Modelled from the spec: the repository contains no order ledger (no
    code places, tracks or transitions orders; [Order.status] is a free
    string that nothing writes).  The state machine below follows section
    4.4 of the specification: [PENDING -> OPEN -> {FILLED | CANCELLED |
    REJECTED}], terminal states final, a refused transition reported as a
    logic error. *)
Inductive OrderStatus := PENDING | OPEN | FILLED | CANCELLED | REJECTED.

Definition terminal (st : OrderStatus) : bool :=
  match st with
  | FILLED | CANCELLED | REJECTED => true
  | PENDING | OPEN => false
  end.

Definition allowed (from to : OrderStatus) : bool :=
  match from, to with
  | PENDING, OPEN => true
  | OPEN, FILLED | OPEN, CANCELLED | OPEN, REJECTED => true
  | _, _ => false
  end.

Inductive LedgerError :=
| OrderNotFound (orderId : Z)
| DuplicateOrder (orderId : Z)
| IllegalTransition (orderId : Z) (from to : OrderStatus).

Inductive Operation :=
| Submit (orderId : Z)
| Transition (orderId : Z) (to : OrderStatus).

(** Modelled from the spec: the ledger operations, which the repository
    does not implement.  A submitted order starts [PENDING]; a transition
    is applied only when the state machine allows it. *)
Definition apply (op : Operation) (ledger : gmap Z OrderStatus)
  : LedgerError + gmap Z OrderStatus :=
  match op with
  | Submit orderId =>
      match ledger !! orderId with
      | Some _ => inl (DuplicateOrder orderId)
      | None => inr (<[orderId := PENDING]> ledger)
      end
  | Transition orderId to =>
      match ledger !! orderId with
      | None => inl (OrderNotFound orderId)
      | Some from =>
          if allowed from to then inr (<[orderId := to]> ledger)
          else inl (IllegalTransition orderId from to)
      end
  end.

(** A refused operation leaves the ledger as it was. *)
Definition applyOrKeep (ledger : gmap Z OrderStatus) (op : Operation)
  : gmap Z OrderStatus :=
  match apply op ledger with
  | inr ledger' => ledger'
  | inl _ => ledger
  end.

Definition applyAll (ops : list Operation) (ledger : gmap Z OrderStatus)
  : gmap Z OrderStatus :=
  fold_left applyOrKeep ops ledger.

End OrderLedger.

(** ** Sample inputs and outcome predicates used in the statements *)

Module Samples.
Import Js Http.

Local Set Warnings "-inexact-float".

(** The only outcome [validateCredentials] reports as [true]: a
    non-empty secret, and an answer whose status is in the 2xx range and
    whose body parses. *)
Definition accepted (apiSecret : string) (net : Network) : bool :=
  negb (String.eqb apiSecret "") &&
  match net with
  | Answers _ r => ok r && match json r with Some _ => true | None => false end
  | Fails _ _ => false
  end.

(** The parser's messages are those of V8. *)
Definition unauthorized : Response :=
  mkResponse false 401 "Unauthorized"
             "Invalid API-key, IP, or permissions for action." None
             ("Unexpected token 'I', "
              +:+ String ProxyClient.doubleQuote
                    ("Invalid AP" +:+ String ProxyClient.doubleQuote
                                        "... is not valid JSON")).

Definition okResponse : Response :=
  mkResponse true 200 "OK" "{}" (Some (JObject [])) "".

Definition htmlResponse : Response :=
  mkResponse true 200 "OK" "<html>" None
             ("Unexpected token '<', "
              +:+ String ProxyClient.doubleQuote
                    ("<html>" +:+ String ProxyClient.doubleQuote
                                    " is not valid JSON")).

(** An answer whose body is the plain text [Failed to fetch]: the
    parser's message quotes it. *)
Definition quotedFailure : Response :=
  mkResponse true 200 "OK" "Failed to fetch" None
             ("Unexpected token 'F', "
              +:+ String ProxyClient.doubleQuote
                    ("Failed to fetch" +:+ String ProxyClient.doubleQuote
                                             " is not valid JSON")).


Definition sampleNow : Z := 1700000000000.

Definition directClient : DirectClient.BinanceApiClient :=
  DirectClient.new (DirectClient.mkConfig "key" "secret" true).

Definition proxyClient : ProxyClient.BinanceApiClient :=
  ProxyClient.new (DirectClient.mkConfig "key" "secret" true).

(** The options [makeRequest] of the signing client passes to [fetch]. *)
Definition signedInit (c : DirectClient.BinanceApiClient) : RequestInit :=
  {| method := "GET";
     headers := [("X-MBX-APIKEY", DirectClient.apiKey c)];
     mode := Some "cors";
     credentials := Some "omit";
     signalTimeout := Some 10000;
     body := None |}.

(** An application state: credentials typed into the API form. *)
Definition withCredentials : App.State :=
  App.mkState [] [] [] false (App.mkApiSettings "binance" "key" "s3cr3t" true)
              None true false None GridSettingsHook.initialState ∅.

(** [Math.random()] returning 0 a hundred times: the sampled price falls
    by 100 at every step. *)
Definition fallingRandoms : list float := repeat 0%float 100.

Definition belowStopLoss (s : App.State) (d : App.PriceData) : bool :=
  (App.samplePrice d
   <=? GridSettingsHook.stopLoss
         (GridSettingsHook.settings (App.gridSettings s)))%float.

(** The query string [getCurrentPrice] signs. *)
Definition priceQueryString (symbol : string) (now : Z) : string :=
  urlSearchParams [("symbol", symbol); ("timestamp", pretty now)].

End Samples.

(** ** Numeric text fields ([useGridField] of [src/App.tsx]) *)

Module GridField.
Import Js.

(** The characters [/[^\d.]/g] keeps. *)
Definition isDigitOrDot (c : ascii) : bool :=
  let n := N_of_ascii c in
  ((48 <=? n) && (n <=? 57) || (n =? 46))%N.

(** [value.replace(/[^\d.]/g, '')]. *)
Fixpoint keepDigitsAndDots (value : string) : string :=
  match value with
  | EmptyString => EmptyString
  | String c rest =>
      if isDigitOrDot c then String c (keepDigitsAndDots rest)
      else keepDigitsAndDots rest
  end.

(** [s.split('.')]: never empty, [[""]] for the empty string. *)
Fixpoint splitDot (s : string) : list string :=
  match s with
  | EmptyString => [EmptyString]
  | String c rest =>
      if Ascii.eqb c "."%char then EmptyString :: splitDot rest
      else
        match splitDot rest with
        | part :: parts => String c part :: parts
        | [] => [String c EmptyString]
        end
  end.

(** The first three statements of [handleChange]: strip, split, keep the
    first dot only. *)
Definition sanitize (value : string) : string :=
  let newValue := keepDigitsAndDots value in
  let parts := splitDot newValue in
  nth 0 parts "" +:+
  (if (1 <? length parts)%nat then "." +:+ nth 1 parts "" else "").

Section Field.
(** [Number(text)] and [n.toLocaleString()], as the engine evaluates
    them. *)
Variable Number : string -> float.
Variable toLocaleString : float -> string.

(** The hook's cells: the text shown, and the sanitized text waiting for
    the 300 ms timer ([updateTimeoutRef]). *)
Record FieldState := mkFieldState {
  localValue : string;
  pending : option string
}.

(** [handleChange]: show the sanitized text and (re)arm the timer. *)
Definition handleChange (value : string) (st : FieldState) : FieldState :=
  let sanitizedValue := sanitize value in
  {| localValue := sanitizedValue; pending := Some sanitizedValue |}.

(** The timer callback (component still mounted): the value passed to
    [onChange], if any. *)
Definition timerFires (st : FieldState) : FieldState * option float :=
  match pending st with
  | Some sanitizedValue =>
      ({| localValue := localValue st; pending := None |},
       if negb (String.eqb sanitizedValue "")
          && negb (isNaN (Number sanitizedValue))
       then Some (Number sanitizedValue) else None)
  | None => (st, None)
  end.

(** [handleBlur]: the timer is dropped; an empty or non-numeric text
    restores [initialValue], any other text is committed. *)
Definition handleBlur (initialValue : float) (st : FieldState)
  : FieldState * float :=
  let numericValue := keepDigitsAndDots (localValue st) in
  if String.eqb numericValue "" || isNaN (Number numericValue) then
    ({| localValue := toLocaleString initialValue; pending := None |},
     initialValue)
  else
    ({| localValue := toLocaleString (Number numericValue); pending := None |},
     Number numericValue).

(** [handleFocus]: show the raw digits. *)
Definition handleFocus (st : FieldState) : FieldState :=
  let numericValue := keepDigitsAndDots (localValue st) in
  if negb (isNaN (Number numericValue))
  then {| localValue := numericValue; pending := pending st |}
  else st.
End Field.

End GridField.

(** ** The settings form component ([GridSettingsForm], [handleNumberInput]) *)

Module SettingsForm.
Import Js GridSettingsHook.

(** [keyof GridSettings]. *)
Inductive Field :=
| FUpperLimit | FLowerLimit | FGridNumber
| FInitialInvestment | FStopLoss | FTakeProfitLevel.

Definition getField (f : Field) (s : GridSettings) : float :=
  match f with
  | FUpperLimit => upperLimit s
  | FLowerLimit => lowerLimit s
  | FGridNumber => gridNumber s
  | FInitialInvestment => initialInvestment s
  | FStopLoss => stopLoss s
  | FTakeProfitLevel => takeProfitLevel s
  end.

(** The object [{ [field]: value }]. *)
Definition single (f : Field) (v : float) : PartialGridSettings :=
  match f with
  | FUpperLimit => mkPartial (Some v) None None None None None
  | FLowerLimit => mkPartial None (Some v) None None None None
  | FGridNumber => mkPartial None None (Some v) None None None
  | FInitialInvestment => mkPartial None None None (Some v) None None
  | FStopLoss => mkPartial None None None None (Some v) None
  | FTakeProfitLevel => mkPartial None None None None None (Some v)
  end.

(** [value.replace(/,/g, '')]. *)
Fixpoint removeCommas (value : string) : string :=
  match value with
  | EmptyString => EmptyString
  | String c rest =>
      if Ascii.eqb c ","%char then removeCommas rest
      else String c (removeCommas rest)
  end.

Section Form.
(** [parseFloat], as the engine evaluates it. *)
Variable parseFloat : string -> float.

(** [handleNumberInput]: the argument passed to [onUpdate], if it is
    called. *)
Definition handleNumberInput (field : Field) (value : string)
  : option PartialGridSettings :=
  if String.eqb value "" then None
  else
    let numericValue := parseFloat (removeCommas value) in
    if negb (isNaN numericValue) then Some (single field numericValue)
    else None.

(** The form wired to the hook: [onUpdate] is [updateSettings]. *)
Definition typeInto (field : Field) (value : string) (st : HookState) : HookState :=
  match handleNumberInput field value with
  | Some newSettings => updateSettings newSettings st
  | None => st
  end.
End Form.

End SettingsForm.

(** ** Grid settings inside the application ([handleSettingsUpdate], the
    form's field callbacks and the AI-optimization button of
    [src/App.tsx]) *)

Module SettingsFlow.
Import Js GridSettingsHook SettingsForm.

(** A complete settings object passed as an update. *)
Definition allFields (s : GridSettings) : PartialGridSettings :=
  mkPartial (Some (upperLimit s)) (Some (lowerLimit s)) (Some (gridNumber s))
            (Some (initialInvestment s)) (Some (stopLoss s))
            (Some (takeProfitLevel s)).

(** [{ ...settings, [field]: value }]. *)
Definition setField (f : Field) (v : float) (s : GridSettings) : GridSettings :=
  spread s (single f v).

Record AiOptimization := mkAi {
  enabled : bool;
  timeframe : string;
  historyPeriod : Z;
  riskLevel : string;
  optimizationInProgress : bool;
  lastOptimized : option string
}.

(** The cells the handlers below read or write: the component's own
    copy of the settings, the hook's cells, the AI form's cells,
    [showAiSettings], and [localStorage]. *)
Record State := mkState {
  localSettings : GridSettings;
  hook : HookState;
  aiOptimization : AiOptimization;
  showAiSettings : bool;
  localStorage : gmap string string
}.

Section Flow.
(** [JSON.stringify] of a settings object and of the AI settings, and
    [new Date(ms).toISOString()], as the engine evaluates them. *)
Variable stringifySettings : GridSettings -> string.
Variable stringifyAi : AiOptimization -> string.
Variable toISOString : Z -> string.
(** [Number(text)] and [n.toLocaleString()] of the field hook. *)
Variable Number : string -> float.
Variable toLocaleString : float -> string.

(** [handleSettingsUpdate(newSettings)]. *)
Definition handleSettingsUpdate (newSettings : GridSettings) (st : State) : State :=
  {| localSettings := newSettings;
     hook := updateSettings (allFields newSettings) (hook st);
     aiOptimization := aiOptimization st;
     showAiSettings := showAiSettings st;
     localStorage :=
       <["gridBotSettings" := stringifySettings newSettings]> (localStorage st) |}.

(** The [onChange] callback of a field of the settings form:
    [(value) => handleSettingsUpdate({...localSettings, [field]: value})]. *)
Definition fieldChanged (f : Field) (v : float) (st : State) : State :=
  handleSettingsUpdate (setField f v (localSettings st)) st.

(** A field of the form is [useGridField(localSettings.field, callback)]:
    its debounce timer and its blur handler call the callback of the
    render they were created in, which spreads that render's
    [localSettings] ([rendered]). *)
Definition fieldTimer (f : Field) (rendered : GridSettings)
    (fs : GridField.FieldState) (st : State) : GridField.FieldState * State :=
  match GridField.timerFires Number fs with
  | (fs', Some value) => (fs', handleSettingsUpdate (setField f value rendered) st)
  | (fs', None) => (fs', st)
  end.

Definition fieldBlur (f : Field) (rendered : GridSettings)
    (fs : GridField.FieldState) (st : State) : GridField.FieldState * State :=
  let '(fs', value) :=
    GridField.handleBlur Number toLocaleString (getField f rendered) fs in
  (fs', handleSettingsUpdate (setField f value rendered) st).

(** [optimizedSettings] of the optimization timer. *)
Definition optimizedSettings (gridSettings : GridSettings) : GridSettings :=
  {| upperLimit := 31500;
     lowerLimit := 24500;
     gridNumber := 14;
     initialInvestment := initialInvestment gridSettings;
     stopLoss := stopLoss gridSettings;
     takeProfitLevel := takeProfitLevel gridSettings |}.

Definition optimizationDone : string :=
  "AI最適化が完了しました。新しい設定が適用されました。".

(** The click on the optimization button.  With optimization enabled it
    marks the run in progress and arms the 2-second timer, whose callback
    closes over the cells as rendered at the click ([gridSettings],
    [aiOptimization]); otherwise it stores the AI settings and closes the
    form.  The result carries the captured cells when a timer is armed. *)
Definition clickOptimize (st : State)
  : State * option (GridSettings * AiOptimization) :=
  let ai := aiOptimization st in
  if enabled ai then
    ({| localSettings := localSettings st;
        hook := hook st;
        aiOptimization :=
          mkAi (enabled ai) (timeframe ai) (historyPeriod ai) (riskLevel ai)
               true (lastOptimized ai);
        showAiSettings := showAiSettings st;
        localStorage := localStorage st |},
     Some (settings (hook st), ai))
  else
    ({| localSettings := localSettings st;
        hook := hook st;
        aiOptimization := ai;
        showAiSettings := false;
        localStorage :=
          <["gridBotAiSettings" := stringifyAi ai]> (localStorage st) |},
     None).

(** The timer callback, two seconds later, on the state of that
    moment; [now] and [now'] are the instants of its two [new Date()],
    the second component is the alert shown. *)
Definition optimizationTimer (captured : GridSettings * AiOptimization)
    (now now' : Z) (st : State) : State * string :=
  let '(gridSettings, ai) := captured in
  let finishedAt (t : Z) :=
    mkAi (enabled ai) (timeframe ai) (historyPeriod ai) (riskLevel ai)
         false (Some (toISOString t)) in
  ({| localSettings := localSettings st;
      hook := updateSettings (allFields (optimizedSettings gridSettings)) (hook st);
      aiOptimization := finishedAt now;
      showAiSettings := false;
      localStorage :=
        <["gridBotAiSettings" := stringifyAi (finishedAt now')]> (localStorage st) |},
   optimizationDone).
End Flow.

End SettingsFlow.

(** ** Predicates on texts used in the statements *)

Module Text.

Fixpoint allChars (p : ascii -> bool) (s : string) : bool :=
  match s with
  | EmptyString => true
  | String c rest => p c && allChars p rest
  end.

Fixpoint countChar (c : ascii) (s : string) : nat :=
  match s with
  | EmptyString => O
  | String d rest => (if Ascii.eqb d c then 1 else 0) + countChar c rest
  end.

(** The text before the first dot, and the text after it, if any. *)
Fixpoint upToDot (s : string) : string :=
  match s with
  | EmptyString => EmptyString
  | String c rest =>
      if Ascii.eqb c "."%char then EmptyString else String c (upToDot rest)
  end.

Fixpoint afterDot (s : string) : option string :=
  match s with
  | EmptyString => None
  | String c rest => if Ascii.eqb c "."%char then Some rest else afterDot rest
  end.

End Text.

(** ** The running flag as a function of the clicks *)

Module RunningFlag.

(** What one event does to [isRunning] according to its handler's
    text: the start/stop button negates it, the emergency stop clears
    it. *)
Definition after (running : bool) (e : App.Event) : bool :=
  match e with
  | App.ClickStartStop => negb running
  | App.ClickEmergencyStop => false
  | _ => running
  end.

End RunningFlag.

(** ** Reading parsed values *)

Module JsonValue.
Import Js Http.

(** [value.key] on a parsed value other than [null], for a key that is
    no built-in member of arrays, strings, numbers or booleans (such as
    [error], [message], [asset], [free], [balances]): the member of an
    object, [undefined] ([None]) otherwise. *)
Definition property (key : string) (value : Json) : option Json :=
  match value with
  | JObject fields =>
      match List.find (fun kv => String.eqb (fst kv) key) fields with
      | Some kv => Some (snd kv)
      | None => None
      end
  | _ => None
  end.

(** [value || fallback]. *)
Definition orElse (value : option Json) (fallback : Json) : Json :=
  match value with
  | Some j => if truthy j then j else fallback
  | None => fallback
  end.

(** The error raised by a member access on [null], and by a call of a
    member that is no function (texts of V8). *)
Definition nullMember (key : string) : Error :=
  mkError "TypeError"
          ("Cannot read properties of null (reading '" +:+ key +:+ "')") None None.

Definition notAFunction (what : string) : Error :=
  mkError "TypeError" (what +:+ " is not a function") None None.

End JsonValue.

(** ** The wrappers around the proxy ([services/api.ts], both versions) *)

Module ApiWrappers.
Import Js Http JsonValue.

(** How [apiClient.get] settles: the server replied with a status and a
    parsed body, or no reply came (the rejection then has no
    [response]; [responseKey] tells whether the error object still has
    a [response] member, which depends on the axios release). *)
Inductive Outcome : Type :=
| Replied (status : Z) (data : Json)
| NoReply (message : string) (responseKey : bool).

(** A value caught by a wrapper: an axios error, another [Error]
    without a [response] member, or a value that is neither. *)
Inductive Thrown : Type :=
| AxiosError (response : option (Z * Json)) (responseKey : bool) (message : string)
| OtherError (message : string)
| NotAnError.

(** The object a wrapper returns; members that are not set are
    [None]. *)
Record ApiResult := mkResult {
  isError : bool;
  data : option Json;
  message : option Json;
  status : option Z
}.

(** The text of [res.json(body)] parsed by the client. *)
Definition replyData (b : ProxyServer.ReplyBody) : Json :=
  match b with
  | ProxyServer.Data d => d
  | ProxyServer.ErrorBody label details =>
      JObject (("error", JString label)
               :: match details with
                  | Some d => [("details", d)]
                  | None => []
                  end)
  end.

(** Statuses whose response carries the body written by [res.json]. *)
Definition carriesBody (st : Z) : bool :=
  (200 <=? st) && (st <? 600)
  && negb (st =? 204) && negb (st =? 205) && negb (st =? 304).

(** What the client receives when the server behind the base URL sends
    [reply]; other statuses are not modelled. *)
Definition clientSees (reply : ProxyServer.ServerReply) : option Outcome :=
  if carriesBody (ProxyServer.replyStatus reply)
  then Some (Replied (ProxyServer.replyStatus reply)
                     (replyData (ProxyServer.replyBody reply)))
  else None.

(** axios rejects a reply whose status is outside 2xx. *)
Definition settle (o : Outcome) : Json + Thrown :=
  match o with
  | Replied st d =>
      if (200 <=? st) && (st <? 300) then inl d
      else inr (AxiosError (Some (st, d)) true
                  ("Request failed with status code " +:+ pretty st))
  | NoReply m key => inr (AxiosError None key m)
  end.

(** A request of a wrapper, relative to the base URL: the path, the
    [params] object and the headers of the axios instance. *)
Record Request := mkRequest {
  path : string;
  params : gmap string ProxyServer.QueryValue;
  requestHeaders : list (string * string)
}.

Definition instanceHeaders : list (string * string) :=
  [("Content-Type", "application/json")].

(** The version with the base URL ending in [/api]. *)
Module V1.

Definition handleApiError (error : Thrown) : completion ApiResult :=
  match error with
  | AxiosError (Some (st, d)) _ _ =>
      match d with
      | JNull => Throw (nullMember "error")
      | _ =>
          Normal (mkResult true None
                    (Some (orElse (property "error" d)
                                  (JString "通信エラーが発生しました")))
                    (Some st))
      end
  | _ =>
      Normal (mkResult true None (Some (JString "予期せぬエラーが発生しました"))
                       (Some 500))
  end.

Definition wrap (o : Outcome) : completion ApiResult :=
  match settle o with
  | inl d => Normal (mkResult false (Some d) None None)
  | inr error => handleApiError error
  end.

(** [getBalance(asset)] sends [GET /balance] with [params: { asset }]:
    the query the server parses. *)
Definition getBalanceQuery (asset : string) : gmap string ProxyServer.QueryValue :=
  {[ "asset" := ProxyServer.QString asset ]}.

Definition getBalanceRequest (asset : string) : Request :=
  mkRequest "/balance" (getBalanceQuery asset) instanceHeaders.

Definition getBalance (asset : string) (o : Outcome) : completion ApiResult := wrap o.

(** [getPrice(symbol)] sends [GET /price/<symbol>]. *)
Definition getPriceRequest (symbol : string) : Request :=
  mkRequest ("/price/" +:+ symbol) ∅ instanceHeaders.

Definition getPrice (symbol : string) (o : Outcome) : completion ApiResult := wrap o.

Definition getAccountInfoRequest : Request :=
  mkRequest "/account" ∅ instanceHeaders.

Definition getAccountInfo (o : Outcome) : completion ApiResult := wrap o.

End V1.

(** The version stored with the signing client. *)
Module V2.

Definition handleApiError (error : Thrown) : ApiResult :=
  match error with
  | AxiosError response key m =>
      if key || match response with Some _ => true | None => false end then
        let member :=
          match response with
          | Some (_, d) =>
              match d with
              | JNull => None
              | _ => property "message" d
              end
          | None => None
          end in
        mkResult true None
                 (Some (orElse member (JString "APIリクエストに失敗しました"))) None
      else
        mkResult true None
                 (Some (if String.eqb m "" then JString "予期せぬエラーが発生しました"
                        else JString m)) None
  | OtherError m =>
      mkResult true None
               (Some (if String.eqb m "" then JString "予期せぬエラーが発生しました"
                      else JString m)) None
  | NotAnError =>
      mkResult true None (Some (JString "予期せぬエラーが発生しました")) None
  end.

Definition wrap (o : Outcome) : ApiResult :=
  match settle o with
  | inl d => mkResult false (Some d) None None
  | inr error => handleApiError error
  end.

(** [getBalance(symbol)] sends [GET /api/balance/<symbol>]. *)
Definition getBalanceRequest (symbol : string) : Request :=
  mkRequest ("/api/balance/" +:+ symbol) ∅ instanceHeaders.

(** [getPrice(symbol)] sends [GET /api/price/<symbol>]. *)
Definition getPriceRequest (symbol : string) : Request :=
  mkRequest ("/api/price/" +:+ symbol) ∅ instanceHeaders.

Definition getPrice (symbol : string) (o : Outcome) : ApiResult := wrap o.

Definition getAccountInfoRequest : Request :=
  mkRequest "/api/account" ∅ instanceHeaders.

End V2.

End ApiWrappers.

(** ** Reading the balance ([getAccountBalance], both clients) *)

Module Balances.
Import Js Http JsonValue.

Record Balance := mkBalance {
  base : float;
  quote : float
}.

(** [balances.find(b => b.asset === asset)] on the items of an array:
    the callback reads a member of every item up to the first match, so
    a [null] item met on the way raises. *)
Fixpoint findAsset (asset : string) (items : list Json) : completion (option Json) :=
  match items with
  | [] => Normal None
  | b :: rest =>
      match b with
      | JNull => Throw (nullMember "asset")
      | _ =>
          match property "asset" b with
          | Some (JString a) =>
              if String.eqb a asset then Normal (Some b) else findAsset asset rest
          | _ => findAsset asset rest
          end
      end
  end.

(** [found?.free || '0']. *)
Definition freeOrZero (found : option Json) : Json :=
  orElse (match found with
          | Some b => property "free" b
          | None => None
          end) (JString "0").

Section Decoders.
(** [parseFloat(value)] on a parsed value, as the engine evaluates
    it. *)
Variable parseFloat : Json -> float.

(** The lookups both clients perform on the list of balances. *)
Definition readBalances (items : list Json) : completion Balance :=
  bind (findAsset "BTC" items) (fun btcBalance =>
  bind (findAsset "USDT" items) (fun usdtBalance =>
  Normal {| base := parseFloat (freeOrZero btcBalance);
            quote := parseFloat (freeOrZero usdtBalance) |})).

(** The second client: the body itself is taken for the list. *)
Definition proxyDecode (response : Json) : completion Balance :=
  match response with
  | JArray items => readBalances items
  | JNull => Throw (nullMember "find")
  | _ => Throw (notAFunction "balances.find")
  end.

Definition proxyGetAccountBalance (c : ProxyClient.BinanceApiClient)
    (net : Network) : completion Balance :=
  tryCatch (bind (ProxyClient.makeRequest c "/balance" "GET" None net) proxyDecode)
           (fun error => Throw error).

(** The signing client: the list is [data.balances || []]. *)
Definition directDecode (data : Json) : completion Balance :=
  match data with
  | JNull => Throw (nullMember "balances")
  | _ =>
      match orElse (property "balances" data) (JArray []) with
      | JArray items => readBalances items
      | _ => Throw (notAFunction "balances.find")
      end
  end.

Definition directGetAccountBalance (c : DirectClient.BinanceApiClient)
    (now : Z) (net : Network) : completion Balance :=
  tryCatch (bind (DirectClient.makeRequest c "/account" [] now net) directDecode)
           (fun error => Throw (DirectClient.handleError error "残高の取得に失敗しました")).
End Decoders.

End Balances.

(** ** Stored grid settings ([loadSettings], [saveSettings] and the
    autosave effect of the hook; the initial cells of [src/App.tsx]) *)

Module HookStorage.
Import Js GridSettingsHook SettingsForm SettingsFlow.

(** An update that sets nothing ([undefined] or [{}] spread over an
    object). *)
Definition emptyUpdate : PartialGridSettings :=
  mkPartial None None None None None None.

Section Storage.
(** [JSON.stringify(settings)], and [JSON.parse(text)] read as the
    numeric members a spread copies from its result (none for a value
    that is no object), as the engine evaluates them.  The storage is
    one that accepts every item. *)
Variable stringifySettings : GridSettings -> string.
Variable parseSettings : string -> completion PartialGridSettings.

(** [loadSettings]: an absent or empty item, and a text that does not
    parse, give the defaults overridden by [initialSettings]. *)
Definition loadSettings (initialSettings : option PartialGridSettings)
    (localStorage : gmap string string) : GridSettings :=
  let fallback := spread defaultSettings (default emptyUpdate initialSettings) in
  match localStorage !! "gridBotSettings" with
  | Some savedSettings =>
      if String.eqb savedSettings "" then fallback
      else
        match parseSettings savedSettings with
        | Normal saved => spread defaultSettings saved
        | Throw _ => fallback
        end
  | None => fallback
  end.

(** [saveSettings]: the new cells, the storage and the value
    returned. *)
Definition saveSettings (st : HookState) (localStorage : gmap string string)
  : HookState * gmap string string * bool :=
  ({| settings := settings st; isDirty := false |},
   <["gridBotSettings" := stringifySettings (settings st)]> localStorage,
   true).

(** The timer of the autosave effect, one second after the settings
    became dirty. *)
Definition autosaveTimer (st : State) : State :=
  if isDirty (hook st) then
    let '(hook', localStorage', _) := saveSettings (hook st) (localStorage st) in
    {| localSettings := localSettings st;
       hook := hook';
       aiOptimization := aiOptimization st;
       showAiSettings := showAiSettings st;
       localStorage := localStorage' |}
  else st.

(** The cells after mounting the application on a given storage: the
    hook loads the stored settings, the component's own copy and the
    optimization settings start from literals. *)
Definition mount (localStorage : gmap string string) : State :=
  {| localSettings := mkGridSettings 30000 25000 10 1000 24000 31000;
     hook := {| settings := loadSettings None localStorage; isDirty := false |};
     aiOptimization := mkAi false "1d" 30 "medium" false None;
     showAiSettings := false;
     localStorage := localStorage |}.
End Storage.

End HookStorage.

(** ** The connection test of the application (the connection-test
    button and [handleApiError] of [src/App.tsx]) *)

Module BalanceFlow.
Import Js Http.

(** The alert of [handleApiError(error, operation)] for a thrown
    [Error]. *)
Definition handleApiError (error : Error) (operation : string) : App.Effect :=
  App.Alert (operation +:+ "中にエラーが発生しました: " +:+ message error).

Section Flow.
Variable parseFloat : Json -> float.

(** The [onClick] of the connection-test button. *)
Definition connectionTest (net : Network) (s : App.State)
  : App.State * list App.Effect :=
  let a := App.apiSettings s in
  if negb (String.eqb (App.apiKey a) "") && negb (String.eqb (App.apiSecret a) "") then
    let client :=
      ProxyClient.new
        (DirectClient.mkConfig (App.apiKey a) (App.apiSecret a) (App.testMode a)) in
    match Balances.proxyGetAccountBalance parseFloat client net with
    | Normal _ =>
        (App.setShowApiSettings false
           (App.setBinanceClient client
              (App.setItem "gridBotApiSettings" (App.stringifyApiSettings a) s)),
         [App.Call (App.CallGetAccountBalance client);
          App.Alert "APIキーの接続に成功しました！"])
    | Throw error =>
        (s, [App.Call (App.CallGetAccountBalance client);
             handleApiError error "API接続テスト"])
    end
  else (s, [App.Alert "APIキーとシークレットを入力してください"]).

End Flow.

End BalanceFlow.

(** ** Grid model: properties *)

Module GridModelProofs.
Import Js GridSettingsHook.

Local Set Warnings "-inexact-float".

(** *** The array builder *)

Lemma ToLength_nonneg (x : float) : 0 <= ToLength x.
Proof.
  unfold ToLength, maxSafeInteger.
  destruct (Prim2SF x) as [sg | sg | | sg m e]; try destruct sg; try lia.
  apply Z.min_glb; [lia |].
  destruct (0 <=? e) eqn:He.
  - apply Z.leb_le in He. apply Z.mul_nonneg_nonneg; [lia |].
    apply Z.pow_nonneg; lia.
  - apply Z.div_pos; [lia |]. apply Z.pow_pos_nonneg; [lia |].
    apply Z.leb_gt in He. lia.
Qed.

Lemma ArrayFrom_normal {A} (len : float) (f : nat -> A) :
  ToLength len <= maxArrayLength ->
  ArrayFrom len f = Normal (List.map f (seq 0 (Z.to_nat (ToLength len)))).
Proof.
  intros Hle. unfold ArrayFrom.
  destruct (ToLength len <=? maxArrayLength) eqn:E; [reflexivity |].
  apply Z.leb_gt in E. lia.
Qed.

Lemma map_seq_lookup {A} (f : nat -> A) (n i : nat) :
  (i < n)%nat -> List.map f (seq 0 n) !! i = Some (f i).
Proof.
  intros Hi. rewrite list_lookup_fmap.
  rewrite lookup_seq_lt by exact Hi. reflexivity.
Qed.

(** For an integer grid count up to 4096 the requested length is the
    count plus one. *)
Lemma ToLength_integer_grid (n : nat) :
  (n <= 4096)%nat -> ToLength (ofNat n + 1)%float = Z.of_nat n + 1.
Proof.
  intros Hn.
  assert (Hall : forallb (fun k => ToLength (ofNat k + 1)%float =? Z.of_nat k + 1)
                         (seq 0 4097) = true) by (vm_compute; reflexivity).
  rewrite forallb_forall in Hall.
  apply Z.eqb_eq, Hall, in_seq. lia.
Qed.

(** *** Level 0 *)

Lemma ofNat_zero : Prim2SF (ofNat 0) = S754_zero false.
Proof. vm_compute. reflexivity. Qed.

Lemma mul_zero_of_finite (x : float) :
  isFinite x = true -> exists sg, Prim2SF (x * ofNat 0)%float = S754_zero sg.
Proof.
  unfold isFinite. intros Hfin.
  rewrite FloatAxioms.mul_spec, ofNat_zero. unfold SF64mul.
  destruct (Prim2SF x) as [sg | sg | | sg m e]; try discriminate;
    simpl; eauto.
Qed.

Lemma SFeqb_refl (x : spec_float) : x <> S754_nan -> SFeqb x x = true.
Proof.
  intros Hx. unfold SFeqb.
  destruct x as [sg | sg | | sg m e]; simpl; try congruence.
  - destruct sg; reflexivity.
  - destruct sg; rewrite Z.compare_refl, Pos.compare_cont_refl; reflexivity.
Qed.

Lemma add_zero_eqb (l z : float) (sg : bool) :
  Prim2SF z = S754_zero sg -> isNaN l = false -> (l + z =? l)%float = true.
Proof.
  unfold isNaN. intros Hz Hl.
  rewrite FloatAxioms.eqb_spec, FloatAxioms.add_spec, Hz. unfold SF64add.
  destruct (Prim2SF l) as [s0 | s0 | | s0 m e] eqn:El; try discriminate.
  - destruct s0, sg; reflexivity.
  - simpl. destruct s0; reflexivity.
  - simpl. apply SFeqb_refl. discriminate.
Qed.

Lemma level_zero_is_lowerLimit (s : GridSettings) :
  isFinite (calculateGridInterval s) = true ->
  isNaN (lowerLimit s) = false ->
  (lowerLimit s + calculateGridInterval s * ofNat 0 =? lowerLimit s)%float = true.
Proof.
  intros Hfin Hnan.
  destruct (mul_zero_of_finite _ Hfin) as [sg Hsg].
  exact (add_zero_eqb _ _ sg Hsg Hnan).
Qed.

(** *** The scenario of the specification *)

Example scenario_levels :
  calculateGridLines defaultSettings =
  Normal [25000; 25500; 26000; 26500; 27000; 27500; 28000; 28500; 29000;
          29500; 30000]%float.
Proof. vm_compute. reflexivity. Qed.

(** C1, as stated, fails on the code: [xrpSettings] is a valid
    configuration with an integer grid count, the computation returns
    38 levels, and the last one is [0.7000000000000001], which differs
    from [upperLimit = 0.7] because [interval * 37] is rounded.  The
    levels of the valid configuration [hugeSettings] are not strictly
    increasing: the first six are equal.  And for the valid
    configuration [manyGrids] no levels are returned: the array
    constructor throws a [RangeError]. *)
Lemma calculateGridLines_last_level_differs :
  validConfiguration xrpSettings = true /\
  gridNumber xrpSettings = ofNat 37 /\
  exists levels,
    calculateGridLines xrpSettings = Normal levels /\
    length levels = 38%nat /\
    levels !! 37%nat = Some 0.7000000000000001%float /\
    (0.7000000000000001 =? upperLimit xrpSettings)%float = false /\
    validConfiguration hugeSettings = true /\
    gridNumber hugeSettings = ofNat 10 /\
    exists hugeLevels,
      calculateGridLines hugeSettings = Normal hugeLevels /\
      length hugeLevels = 11%nat /\
      strictlyIncreasing hugeLevels = false /\
      hugeLevels !! 0%nat = hugeLevels !! 1%nat /\
      validConfiguration manyGrids = true /\
      calculateGridLines manyGrids = Throw (newRangeError "Invalid array length").
Proof.
  split; [vm_compute; reflexivity |].
  split; [vm_compute; reflexivity |].
  eexists. split; [vm_compute; reflexivity |].
  split; [reflexivity |].
  split; [reflexivity |].
  split; [vm_compute; reflexivity |].
  split; [vm_compute; reflexivity |].
  split; [vm_compute; reflexivity |].
  eexists. split; [vm_compute; reflexivity |].
  split; [reflexivity |]. split; [vm_compute; reflexivity |].
  split; [reflexivity |]. split; vm_compute; reflexivity.
Qed.

(** C1 (amended): whenever the requested length fits an array, the
    computation returns exactly [ToLength (gridNumber + 1)] levels (that
    is [gridNumber + 1] for an integer grid count up to 4096), level [i] is
    [lowerLimit + interval * i] in binary64 arithmetic with the single
    interval [(upperLimit - lowerLimit) / gridNumber], level 0 equals
    [lowerLimit] when the interval is finite and [lowerLimit] is a
    number, and the configuration [{upper: 30000, lower: 25000,
    gridNumber: 10}] yields the 11 strictly increasing points
    25000, 25500, ..., 30000, the first being [lowerLimit] and the last
    [upperLimit]. *)
Theorem calculateGridLines_levels (s : GridSettings) :
  ToLength (gridNumber s + 1)%float <= maxArrayLength ->
  (exists levels,
      calculateGridLines s = Normal levels /\
      Z.of_nat (length levels) = ToLength (gridNumber s + 1)%float /\
      (forall i : nat,
          Z.of_nat i < ToLength (gridNumber s + 1)%float ->
          levels !! i =
          Some (lowerLimit s + calculateGridInterval s * ofNat i)%float) /\
      (forall n : nat,
          (n <= 4096)%nat -> gridNumber s = ofNat n ->
          length levels = S n) /\
      (0 < ToLength (gridNumber s + 1)%float ->
       isFinite (calculateGridInterval s) = true ->
       isNaN (lowerLimit s) = false ->
       exists l0, levels !! 0%nat = Some l0 /\
                  (l0 =? lowerLimit s)%float = true)) /\
  (exists levels,
      calculateGridLines defaultSettings = Normal levels /\
      levels = [25000; 25500; 26000; 26500; 27000; 27500; 28000; 28500;
                29000; 29500; 30000]%float /\
      length levels = 11%nat /\
      strictlyIncreasing levels = true /\
      levels !! 0%nat = Some (lowerLimit defaultSettings) /\
      levels !! 10%nat = Some (upperLimit defaultSettings)).
Proof.
  intros Hfit. split.
  - pose proof (ToLength_nonneg (gridNumber s + 1)%float) as Hnn.
    eexists. split; [unfold calculateGridLines; apply ArrayFrom_normal, Hfit |].
    split; [rewrite length_map, length_seq; lia |].
    split; [| split].
    + intros i Hi. rewrite map_seq_lookup by lia. reflexivity.
    + intros n Hn Hgrid. rewrite length_map, length_seq, Hgrid.
      rewrite (ToLength_integer_grid n Hn). lia.
    + intros Hpos Hfin Hnan. eexists. split.
      * rewrite map_seq_lookup by lia. reflexivity.
      * apply level_zero_is_lowerLimit; assumption.
  - eexists. split; [exact scenario_levels |].
    repeat split; vm_compute; reflexivity.
Qed.

Lemma calculateGridLines_levels_witness :
  ToLength (gridNumber defaultSettings + 1)%float <= maxArrayLength /\
  exists levels,
    calculateGridLines defaultSettings = Normal levels /\
    Z.of_nat (length levels) = 11 /\
    levels !! 3%nat =
      Some (lowerLimit defaultSettings
            + calculateGridInterval defaultSettings * ofNat 3)%float /\
    exists l0, levels !! 0%nat = Some l0 /\
               (l0 =? lowerLimit defaultSettings)%float = true.
Proof.
  assert (Hfit : ToLength (gridNumber defaultSettings + 1)%float <= maxArrayLength)
    by (vm_compute; discriminate).
  split; [exact Hfit |].
  destruct (calculateGridLines_levels defaultSettings Hfit)
    as [[levels (Hrun & Hlen & Hnth & Hint & Hzero)] Hscenario].
  exists levels. split; [exact Hrun |].
  split; [rewrite (Hint 10%nat ltac:(lia) eq_refl); reflexivity |].
  split; [apply Hnth; vm_compute; reflexivity |].
  apply Hzero; vm_compute; reflexivity.
Defined.

(** *** Validation *)

(** C2, as stated, fails on the code: starting from the default state,
    [updateSettings { gridNumber: 0 }] is accepted and the held
    configuration has [gridNumber = 0]; [calculateGridLines] then
    returns the one-element array [[NaN]] instead of failing.  The same
    holds for an inverted range [{ upperLimit: 25000, lowerLimit: 30000 }],
    which yields 11 decreasing levels. *)
Lemma updateSettings_accepts_invalid :
  (let st := updateSettings zeroGrids initialState in
   gridNumber (settings st) = 0%float /\
   validConfiguration (settings st) = false /\
   calculateGridLines (settings st) = Normal [nan]) /\
  (let st := updateSettings invertedRange initialState in
   upperLimit (settings st) = 25000%float /\
   lowerLimit (settings st) = 30000%float /\
   validConfiguration (settings st) = false /\
   calculateGridLines (settings st) =
   Normal [30000; 29500; 29000; 28500; 28000; 27500; 27000; 26500; 26000;
           25500; 25000]%float).
Proof.
  split; cbv zeta; repeat split; vm_compute; reflexivity.
Qed.

Lemma calculateGridLines_outcomes (s : GridSettings) :
  (exists levels, calculateGridLines s = Normal levels) \/
  calculateGridLines s = Throw (newRangeError "Invalid array length").
Proof.
  unfold calculateGridLines, ArrayFrom.
  destruct (ToLength (gridNumber s + 1)%float <=? maxArrayLength);
    [left; eexists; reflexivity | right; reflexivity].
Qed.

(** C2 (amended): [updateSettings] performs no validation.  Every
    partial update is merged field by field over the held
    configuration and the dirty flag is set; the result satisfies
    [upperLimit > lowerLimit] and [gridNumber >= 1] exactly when the
    merged values do.  [calculateGridLines] has no configuration
    error either: it returns an array for every configuration, except
    for the [RangeError] of an array length above 2^32 - 1. *)
Theorem updateSettings_merges_without_validation
    (upd : PartialGridSettings) (st : HookState) :
  let st' := updateSettings upd st in
  isDirty st' = true /\
  upperLimit (settings st') =
    default (upperLimit (settings st)) (p_upperLimit upd) /\
  lowerLimit (settings st') =
    default (lowerLimit (settings st)) (p_lowerLimit upd) /\
  gridNumber (settings st') =
    default (gridNumber (settings st)) (p_gridNumber upd) /\
  initialInvestment (settings st') =
    default (initialInvestment (settings st)) (p_initialInvestment upd) /\
  stopLoss (settings st') =
    default (stopLoss (settings st)) (p_stopLoss upd) /\
  takeProfitLevel (settings st') =
    default (takeProfitLevel (settings st)) (p_takeProfitLevel upd) /\
  validConfiguration (settings st') =
    (default (lowerLimit (settings st)) (p_lowerLimit upd)
     <? default (upperLimit (settings st)) (p_upperLimit upd))%float
    && (1 <=? default (gridNumber (settings st)) (p_gridNumber upd))%float /\
  ((exists levels, calculateGridLines (settings st') = Normal levels) \/
   calculateGridLines (settings st') =
     Throw (newRangeError "Invalid array length")).
Proof.
  cbv zeta. repeat (split; [reflexivity |]).
  apply calculateGridLines_outcomes.
Qed.

End GridModelProofs.

(** ** Request signing: properties *)

Module SigningProofs.
Import Js Platform Signing.

(** The platform model reproduces the published test vectors: SHA-256 of
    ["abc"] (FIPS 180-4), HMAC-SHA256 test case 2 of RFC 4231, and a key
    longer than one block. *)
Example sha256_abc :
  digestHex (Sha256.sha256 (utf8 "abc")) =
  "ba7816bf8f01cfea414140de5dae2223b00361a396177a9cb410ff61f20015ad".
Proof. vm_compute. reflexivity. Qed.

Example hmac_rfc4231_case2 :
  createHmacSha256Hex "Jefe" "what do ya want for nothing?" =
  "5bdcc146bf60754e6a042426089575c75a003f089d2739839dec58b964ec3843".
Proof. vm_compute. reflexivity. Qed.

Example hmac_long_key :
  createHmacSha256Hex
    "kkkkkkkkkkkkkkkkkkkkkkkkkkkkkkkkkkkkkkkkkkkkkkkkkkkkkkkkkkkkkkkkkkkkkkkkkkkkkkkkkkkkkkkkkkkkkkkkkkkk"
    "timestamp=1700000000000" =
  "296879f5dda34737156b35fb4ae4b1e4e5068e302cb4df548a0b3efcaea2680d".
Proof. vm_compute. reflexivity. Qed.

(** *** The two hexadecimal encoders coincide *)

Lemma padStart_toString16_hexByte (b : Byte.byte) :
  padStart 2 "0"%char (toString16 (Sha256.Z_of_byte b)) = hexByte b.
Proof. destruct b; vm_compute; reflexivity. Qed.

Lemma string_app_cons (c : ascii) (s t : string) :
  String c s +:+ t = String c (s +:+ t).
Proof. reflexivity. Qed.

Lemma string_app_empty_r (s : string) : s +:+ "" = s.
Proof.
  induction s as [| c s IH]; [reflexivity |].
  rewrite string_app_cons, IH. reflexivity.
Qed.

Lemma string_app_assoc (s t u : string) : (s +:+ t) +:+ u = s +:+ (t +:+ u).
Proof.
  induction s as [| c s IH]; [reflexivity |].
  rewrite !string_app_cons, IH. reflexivity.
Qed.

Lemma concat_empty_cons (x : string) (xs : list string) :
  String.concat "" (x :: xs) = x +:+ String.concat "" xs.
Proof.
  destruct xs as [| y ys]; simpl.
  - symmetry. apply string_app_empty_r.
  - reflexivity.
Qed.

Lemma joinEmpty_digestHex (bytes : list Byte.byte) :
  joinEmpty
    (List.map (fun b => padStart 2 "0"%char (toString16 (Sha256.Z_of_byte b))) bytes)
  = digestHex bytes.
Proof.
  unfold joinEmpty, digestHex.
  induction bytes as [| b tl IH]; [reflexivity |].
  cbn [List.map]. rewrite !concat_empty_cons, IH, padStart_toString16_hexByte.
  reflexivity.
Qed.

(** *** Shape of the signature *)

Lemma digest_bytes_length (s : Sha256.state) :
  length (Sha256.digest_bytes s) = 32%nat.
Proof. reflexivity. Qed.

Lemma sha256_length (msg : list Byte.byte) : length (Sha256.sha256 msg) = 32%nat.
Proof. unfold Sha256.sha256. apply digest_bytes_length. Qed.

Lemma hmac_sha256_length (key msg : list Byte.byte) :
  length (Sha256.hmac_sha256 key msg) = 32%nat.
Proof. unfold Sha256.hmac_sha256. apply sha256_length. Qed.

Lemma string_length_app (s t : string) :
  String.length (s +:+ t) = (String.length s + String.length t)%nat.
Proof.
  induction s as [| c s IH]; [reflexivity |].
  rewrite string_app_cons. cbn [String.length]. rewrite IH. reflexivity.
Qed.

Lemma digestHex_length (bytes : list Byte.byte) :
  String.length (digestHex bytes) = (2 * length bytes)%nat.
Proof.
  unfold digestHex. induction bytes as [| b tl IH]; [reflexivity |].
  cbn [List.map]. rewrite concat_empty_cons, string_length_app, IH.
  cbn [hexByte String.length length]. lia.
Qed.

Lemma hexByte_lowercase (b : Byte.byte) :
  forallb isLowerHex (String.list_ascii_of_string (hexByte b)) = true.
Proof. destruct b; vm_compute; reflexivity. Qed.

Lemma list_ascii_app (s t : string) :
  String.list_ascii_of_string (s +:+ t) =
  String.list_ascii_of_string s ++ String.list_ascii_of_string t.
Proof.
  induction s as [| c s IH]; [reflexivity |].
  rewrite string_app_cons. cbn [String.list_ascii_of_string]. rewrite IH.
  reflexivity.
Qed.

Lemma digestHex_lowercase (bytes : list Byte.byte) :
  forallb isLowerHex (String.list_ascii_of_string (digestHex bytes)) = true.
Proof.
  unfold digestHex. induction bytes as [| b tl IH]; [reflexivity |].
  cbn [List.map]. rewrite concat_empty_cons, list_ascii_app, forallb_app.
  rewrite hexByte_lowercase, IH. reflexivity.
Qed.

(** *** The browser path *)

Lemma utf8_nonempty (s : string) : s <> "" -> utf8 s <> [].
Proof.
  destruct s as [| c s]; [congruence |]. intros _.
  unfold utf8, String.list_byte_of_string. simpl. discriminate.
Qed.

Lemma browserSign_nonempty (apiSecret queryString : string) :
  apiSecret <> "" ->
  browserSign apiSecret queryString =
  Normal (digestHex (Sha256.hmac_sha256 (utf8 apiSecret) (utf8 queryString))).
Proof.
  intros Hne. unfold browserSign, importKeyHmac, subtleSign.
  pose proof (utf8_nonempty _ Hne) as Hk.
  destruct (utf8 apiSecret) as [| k ks] eqn:Ek; [congruence |].
  cbn [bind]. rewrite joinEmpty_digestHex. reflexivity.
Qed.

(** *** Key padding

    A key shorter than the block is padded with zero bytes, so a secret
    and the same secret followed by a zero byte sign every message alike. *)
Lemma block_key_zero_suffix (key : list Byte.byte) :
  (length key < Sha256.blockSize)%nat ->
  Sha256.block_key (key ++ [Byte.x00]) = Sha256.block_key key.
Proof.
  unfold Sha256.block_key, Sha256.blockSize. intros Hlen. cbv zeta.
  assert (H1 : (64 <? length (key ++ [Byte.x00]))%nat = false)
    by (apply Nat.ltb_ge; rewrite length_app; cbn [length]; lia).
  assert (H2 : (64 <? length key)%nat = false) by (apply Nat.ltb_ge; lia).
  rewrite H1, H2, length_app. cbn [length].
  rewrite <- app_assoc. f_equal.
  replace (64 - length key)%nat with (S (64 - (length key + 1)))%nat by lia.
  reflexivity.
Qed.

Lemma hmac_key_zero_suffix (key msg : list Byte.byte) :
  (length key < Sha256.blockSize)%nat ->
  Sha256.hmac_sha256 (key ++ [Byte.x00]) msg = Sha256.hmac_sha256 key msg.
Proof.
  intros Hlen. unfold Sha256.hmac_sha256.
  rewrite block_key_zero_suffix by exact Hlen. reflexivity.
Qed.

Lemma utf8_app (s t : string) : utf8 (s +:+ t) = utf8 s ++ utf8 t.
Proof.
  unfold utf8, String.list_byte_of_string.
  rewrite list_ascii_app, List.map_app. reflexivity.
Qed.

Lemma utf8_length (s : string) : length (utf8 s) = String.length s.
Proof.
  unfold utf8, String.list_byte_of_string. rewrite length_map.
  induction s as [| c s IH]; [reflexivity |].
  cbn [String.list_ascii_of_string length String.length]. now rewrite IH.
Qed.

(** X1: a secret shorter than the 64-byte block and the same secret
    followed by a NUL character give the same server-side signature for
    every query string (HMAC pads a short key with zero bytes). *)
Theorem trailing_nul_secret_same_signature (apiSecret queryString : string) :
  (String.length apiSecret < 64)%nat ->
  ProxyServer.generateSignature queryString (apiSecret +:+ String "000"%char "") =
  ProxyServer.generateSignature queryString apiSecret.
Proof.
  intros Hlen. unfold ProxyServer.generateSignature, createHmacSha256Hex.
  rewrite utf8_app.
  change (utf8 (String "000"%char "")) with [Byte.x00].
  rewrite hmac_key_zero_suffix; [reflexivity |].
  rewrite utf8_length. exact Hlen.
Qed.

Lemma trailing_nul_secret_same_signature_witness :
  ProxyServer.generateSignature "timestamp=1700000000000"
                                ("secret" +:+ String "000"%char "") =
  ProxyServer.generateSignature "timestamp=1700000000000" "secret".
Proof.
  apply trailing_nul_secret_same_signature. vm_compute. lia.
Defined.

(** C5, as stated, fails on the code for the empty secret: the browser
    path rejects it (key import refuses empty key data, and the [catch]
    rethrows the fixed error) while the server function returns a
    signature. *)
Lemma signing_paths_differ_on_empty_secret :
  DirectClient.generateSignature "" "timestamp=1700000000000" =
    Throw (newError signatureFailed) /\
  ProxyServer.generateSignature "timestamp=1700000000000" "" =
    "19bd37280a58c0adc2db9cf3640abe5dab0bedf99411be4d5ec694ba1549333c" /\
  DirectClient.generateSignature "" "timestamp=1700000000000" <>
    Normal (ProxyServer.generateSignature "timestamp=1700000000000" "").
Proof.
  split; [reflexivity |]. split; [vm_compute; reflexivity |]. discriminate.
Qed.

(** C5 (amended): for every non-empty secret and every query string the
    browser-side [generateSignature] (in both versions of the client)
    returns exactly what the server-side [generateSignature] returns: the
    HMAC-SHA256 of the bytes of the query string under the bytes of the
    secret, written as 64 lowercase hexadecimal digits.  With the empty
    secret the browser side throws its fixed error for every query
    string. *)
Theorem signing_paths_agree (apiSecret queryString : string) :
  apiSecret <> "" ->
  DirectClient.generateSignature "" queryString = Throw (newError signatureFailed) /\
  DirectClient.generateSignature apiSecret queryString =
    Normal (ProxyServer.generateSignature queryString apiSecret) /\
  ProxyClient.generateSignature apiSecret queryString =
    Normal (ProxyServer.generateSignature queryString apiSecret) /\
  ProxyServer.generateSignature queryString apiSecret =
    digestHex (Sha256.hmac_sha256 (utf8 apiSecret) (utf8 queryString)) /\
  String.length (ProxyServer.generateSignature queryString apiSecret) = 64%nat /\
  forallb isLowerHex
    (String.list_ascii_of_string (ProxyServer.generateSignature queryString apiSecret))
  = true.
Proof.
  intros Hne. split; [reflexivity |].
  unfold DirectClient.generateSignature, ProxyClient.generateSignature,
    ProxyServer.generateSignature, createHmacSha256Hex.
  rewrite (browserSign_nonempty _ queryString Hne).
  do 3 (split; [reflexivity |]). split.
  - rewrite digestHex_length, hmac_sha256_length. reflexivity.
  - apply digestHex_lowercase.
Qed.

Lemma signing_paths_agree_witness :
  "Jefe" <> "" /\
  DirectClient.generateSignature "Jefe" "what do ya want for nothing?" =
    Normal (ProxyServer.generateSignature "what do ya want for nothing?" "Jefe").
Proof.
  assert (Hne : "Jefe" <> "") by discriminate.
  split; [exact Hne |].
  exact (proj1 (proj2 (signing_paths_agree "Jefe" "what do ya want for nothing?" Hne))).
Defined.

End SigningProofs.

(** ** Exchange client and proxy: properties *)

Module ClientProofs.
Import Js Http Samples.

(** *** Signing inside the clients *)

Lemma direct_generateSignature_cases (apiSecret queryString : string) :
  DirectClient.generateSignature apiSecret queryString =
  if String.eqb apiSecret ""
  then Throw (newError Signing.signatureFailed)
  else Normal (ProxyServer.generateSignature queryString apiSecret).
Proof.
  destruct (String.eqb_spec apiSecret "") as [-> | Hne]; [reflexivity |].
  unfold DirectClient.generateSignature.
  rewrite (SigningProofs.browserSign_nonempty _ queryString Hne). reflexivity.
Qed.

Lemma proxy_generateSignature_cases (apiSecret queryString : string) :
  ProxyClient.generateSignature apiSecret queryString =
  if String.eqb apiSecret ""
  then Throw (newError (Signing.signatureFailed +:+ ": "
                        +:+ "HMAC key data must not be empty"))
  else Normal (ProxyServer.generateSignature queryString apiSecret).
Proof.
  destruct (String.eqb_spec apiSecret "") as [-> | Hne]; [reflexivity |].
  unfold ProxyClient.generateSignature.
  rewrite (SigningProofs.browserSign_nonempty _ queryString Hne). reflexivity.
Qed.

(** *** Credential validation *)

Lemma direct_validateCredentials_result
    (c : DirectClient.BinanceApiClient) (now : Z) (net : Network) :
  DirectClient.validateCredentials c now net =
  Normal (accepted (DirectClient.apiSecret c) net).
Proof.
  unfold DirectClient.validateCredentials, DirectClient.validateCredentialsCall,
    accepted.
  rewrite direct_generateSignature_cases.
  destruct (String.eqb (DirectClient.apiSecret c) ""); [reflexivity |].
  cbn [bind tryCatch negb andb]. unfold fetch. cbn [init signalTimeout].
  destruct net as [l r | l e]; cbn [unaborted await bind tryCatch]; [| reflexivity].
  destruct (ok r); cbn [negb andb]; [| reflexivity].
  unfold responseJson. destruct (json r); reflexivity.
Qed.

Lemma proxy_validateCredentials_result
    (c : ProxyClient.BinanceApiClient) (now : Z) (net : Network) :
  ProxyClient.validateCredentials c now net =
  Normal (accepted (ProxyClient.apiSecret c) net).
Proof.
  unfold ProxyClient.validateCredentials, ProxyClient.validateCredentialsCall,
    accepted.
  rewrite proxy_generateSignature_cases.
  destruct (String.eqb (ProxyClient.apiSecret c) ""); [reflexivity |].
  cbn [bind tryCatch negb andb]. unfold fetch. cbn [init signalTimeout].
  destruct net as [l r | l e]; cbn [unaborted await bind tryCatch]; [| reflexivity].
  destruct (ok r); cbn [negb andb]; [| reflexivity].
  unfold responseJson. destruct (json r); reflexivity.
Qed.

(** C10: [validateCredentials] (both versions of the client) always
    completes normally with a boolean, never with a thrown error.  The
    boolean is [true] exactly for a parseable success answer obtained
    with a non-empty secret; a rejected [fetch] (network failure,
    timeout), an error status such as 401 and an unparseable body all
    give [false], so an authentication failure and a network outage are
    reported alike. *)
Theorem validateCredentials_never_throws
    (d : DirectClient.BinanceApiClient) (p : ProxyClient.BinanceApiClient)
    (now : Z) (net : Network) (latency : Z) (e : Error) :
  DirectClient.validateCredentials d now net =
    Normal (accepted (DirectClient.apiSecret d) net) /\
  ProxyClient.validateCredentials p now net =
    Normal (accepted (ProxyClient.apiSecret p) net) /\
  DirectClient.validateCredentials d now (Fails latency e) = Normal false /\
  DirectClient.validateCredentials d now (Answers latency unauthorized) = Normal false /\
  ProxyClient.validateCredentials p now (Fails latency e) = Normal false /\
  ProxyClient.validateCredentials p now (Answers latency unauthorized) = Normal false.
Proof.
  rewrite !direct_validateCredentials_result, !proxy_validateCredentials_result.
  unfold accepted. cbn [unauthorized ok andb].
  rewrite !andb_false_r. repeat split; reflexivity.
Qed.

(** *** Requests and timeouts of the signing client *)

Lemma makeRequestCall_cases (c : DirectClient.BinanceApiClient)
    (endpoint : string) (params : list (string * string)) (now : Z) :
  let queryString := urlSearchParams (objectSet "timestamp" (pretty now) params) in
  DirectClient.makeRequestCall c endpoint params now =
  if String.eqb (DirectClient.apiSecret c) ""
  then Throw (newError Signing.signatureFailed)
  else Normal {| url := DirectClient.baseUrl c +:+ endpoint +:+ "?" +:+ queryString
                        +:+ "&signature="
                        +:+ ProxyServer.generateSignature queryString
                              (DirectClient.apiSecret c);
                 init := signedInit c |}.
Proof.
  cbv zeta. unfold DirectClient.makeRequestCall.
  rewrite direct_generateSignature_cases.
  destruct (String.eqb (DirectClient.apiSecret c) ""); reflexivity.
Qed.

Lemma makeRequestCall_init (c : DirectClient.BinanceApiClient)
    (endpoint : string) (params : list (string * string)) (now : Z)
    (call : FetchCall) :
  DirectClient.makeRequestCall c endpoint params now = Normal call ->
  init call = signedInit c.
Proof.
  rewrite makeRequestCall_cases.
  destruct (String.eqb (DirectClient.apiSecret c) ""); [discriminate |].
  intros H. injection H as <-. reflexivity.
Qed.

Lemma handleError_timeout :
  DirectClient.handleError (newError DirectClient.timeoutMessage)
                           DirectClient.requestFailed
  = newError DirectClient.timeoutMessage.
Proof. vm_compute. reflexivity. Qed.

Lemma handleError_cors :
  DirectClient.handleError (newError DirectClient.corsMessage)
                           DirectClient.requestFailed
  = newError DirectClient.corsMessage.
Proof. vm_compute. reflexivity. Qed.

Lemma readResponse_abort :
  DirectClient.readResponse (Rejected abortError) =
  Throw (newError DirectClient.timeoutMessage).
Proof. reflexivity. Qed.


Lemma makeRequest_timeout (c : DirectClient.BinanceApiClient)
    (endpoint : string) (params : list (string * string)) (now : Z)
    (net : Network) (call : FetchCall) :
  DirectClient.makeRequestCall c endpoint params now = Normal call ->
  10000 <= latencyOf net ->
  DirectClient.makeRequest c endpoint params now net =
  Throw (newError DirectClient.timeoutMessage).
Proof.
  intros Hcall Hlate. unfold DirectClient.makeRequest. rewrite Hcall.
  cbn [bind]. unfold fetch.
  rewrite (makeRequestCall_init _ _ _ _ _ Hcall). cbn [signedInit signalTimeout].
  replace (10000 <=? latencyOf net) with true by (symmetry; apply Z.leb_le; lia).
  rewrite readResponse_abort. cbn [tryCatch]. rewrite handleError_timeout.
  reflexivity.
Qed.






(** *** The price query *)

Lemma direct_getCurrentPriceCall_cases (c : DirectClient.BinanceApiClient)
    (symbol : string) (now : Z) :
  DirectClient.getCurrentPriceCall c symbol now =
  if String.eqb (DirectClient.apiSecret c) ""
  then Throw (newError Signing.signatureFailed)
  else Normal {| url := DirectClient.baseUrl c +:+ "/ticker/price" +:+ "?"
                        +:+ priceQueryString symbol now
                        +:+ "&signature="
                        +:+ ProxyServer.generateSignature
                              (priceQueryString symbol now)
                              (DirectClient.apiSecret c);
                 init := signedInit c |}.
Proof.
  unfold DirectClient.getCurrentPriceCall. rewrite makeRequestCall_cases.
  reflexivity.
Qed.

(** C7, as stated, fails on the code: the request [getCurrentPrice]
    of the signing client builds for [BTCUSDT] has a [signature]
    parameter (and a timestamp) in its URL and the API key in the
    [X-MBX-APIKEY] header. *)
Lemma price_request_is_signed :
  exists signature,
    DirectClient.getCurrentPriceCall directClient "BTCUSDT" sampleNow =
    Normal {| url := "https://testnet.binance.vision/api/v3/ticker/price?symbol=BTCUSDT&timestamp=1700000000000&signature="
                     +:+ signature;
              init := signedInit directClient |} /\
    signature = ProxyServer.generateSignature
                  "symbol=BTCUSDT&timestamp=1700000000000" "secret" /\
    String.length signature = 64%nat /\
    headers (signedInit directClient) = [("X-MBX-APIKEY", "key")].
Proof.
  eexists. split; [vm_compute; reflexivity |].
  split; [vm_compute; reflexivity |]. split; reflexivity.
Qed.

End ClientProofs.

(** ** Application: properties *)

Module AppProofs.
Import Js Http Samples.

(** *** Where the API secret goes *)




Lemma balanceHandler_without_secret
    (invalidKeyMessage : ProxyServer.QueryValue -> string)
    (query : gmap string ProxyServer.QueryValue) (now : Z) (net : Network) :
  ProxyServer.present (query !! "apiSecret") = false ->
  ProxyServer.balanceHandler invalidKeyMessage query now net =
  ProxyServer.missingCredentials.
Proof.
  intros Hnone. unfold ProxyServer.balanceHandler.
  destruct (query !! "apiKey") as [apiKey |]; [| reflexivity].
  destruct (query !! "apiSecret") as [apiSecret |]; [| reflexivity].
  rewrite Hnone. cbn [negb]. rewrite orb_true_r. reflexivity.
Qed.








(** *** Halting *)

Lemma step_emits_no_order_intent (e : App.Event) (s : App.State) :
  App.noOrderIntent (snd (App.step e s)) = true.
Proof.
  destruct e as [| | now randoms | | now net]; cbn [App.step].
  - reflexivity.
  - destruct (App.isRunning s); reflexivity.
  - reflexivity.
  - unfold App.savePermanently.
    destruct (negb (String.eqb (App.apiKey (App.apiSettings s)) "")
              && negb (String.eqb (App.apiSecret (App.apiSettings s)) ""));
      reflexivity.
  - unfold App.handleApiSettingsSave.
    rewrite ClientProofs.proxy_validateCredentials_result.
    destruct (accepted _ net); reflexivity.
Qed.

Lemma step_keeps_orders (e : App.Event) (s : App.State) :
  App.activeOrders (fst (App.step e s)) = App.activeOrders s.
Proof.
  destruct e as [| | now randoms | | now net]; cbn [App.step].
  - reflexivity.
  - destruct (App.isRunning s); reflexivity.
  - reflexivity.
  - unfold App.savePermanently.
    destruct (negb (String.eqb (App.apiKey (App.apiSettings s)) "")
              && negb (String.eqb (App.apiSecret (App.apiSettings s)) ""));
      reflexivity.
  - unfold App.handleApiSettingsSave.
    rewrite ClientProofs.proxy_validateCredentials_result.
    destruct (accepted _ net); reflexivity.
Qed.

Lemma run_cons (e : App.Event) (rest : list App.Event) (s : App.State) :
  App.run (e :: rest) s =
  (fst (App.run rest (fst (App.step e s))),
   snd (App.step e s) ++ snd (App.run rest (fst (App.step e s)))).
Proof.
  cbn [App.run]. destruct (App.step e s) as [s1 out1]. cbn [fst snd].
  destruct (App.run rest s1) as [s2 out2]. reflexivity.
Qed.

Lemma run_emits_no_order_intent (events : list App.Event) (s : App.State) :
  App.noOrderIntent (snd (App.run events s)) = true.
Proof.
  revert s. induction events as [| e rest IH]; intros s; [reflexivity |].
  rewrite run_cons. cbn [snd]. unfold App.noOrderIntent in *.
  rewrite forallb_app. rewrite IH.
  pose proof (step_emits_no_order_intent e s) as Hstep.
  unfold App.noOrderIntent in Hstep. rewrite Hstep. reflexivity.
Qed.

Lemma run_keeps_orders (events : list App.Event) (s : App.State) :
  App.activeOrders (fst (App.run events s)) = App.activeOrders s.
Proof.
  revert s. induction events as [| e rest IH]; intros s; [reflexivity |].
  rewrite run_cons. cbn [fst]. rewrite IH. apply step_keeps_orders.
Qed.

(** C8, as stated, fails on the code: a stop-loss breach does not halt
    the engine.  From the mounted application, after the start click a
    price refresh whose samples fall to 17500 (stop-loss 24000) leaves
    [isRunning] set and issues nothing; no order is open at that
    point. *)
Lemma stop_loss_breach_does_not_halt :
  let '(s, out) :=
    App.run [App.ClickStartStop; App.PriceTimer sampleNow fallingRandoms]
            App.initialState in
  App.isRunning s = true /\ out = [] /\
  existsb (belowStopLoss s) (App.priceHistory s) = true /\
  App.activeOrders s = [].
Proof. vm_compute. repeat split; reflexivity. Qed.

(** C8 (amended): the engine is halted by the stop command and by the
    emergency stop only; a stop-loss or take-profit breach does not halt
    it, since a price refresh never changes [isRunning].  In every state
    the application reaches from mounting no order is open
    ([activeOrders] is empty), so at a halt a cancel has been attempted
    for every open order, there being none; the stop command flips
    [isRunning] and the emergency stop clears it and shows its alert.
    After a halt, as before it, no sequence of events emits an order
    intent (a request to place or cancel an order), whatever prices
    follow. *)
Theorem halting_only_clears_running_flag
    (events later : list App.Event) (now : Z) (randoms : list float) :
  let s := fst (App.run events App.initialState) in
  App.activeOrders s = [] /\
  Forall (fun order =>
            existsb (App.isCancelOf (App.id order)) (snd (App.emergencyStop s)) = true /\
            existsb (App.isCancelOf (App.id order)) (snd (App.toggleBotStatus s)) = true)
         (App.activeOrders s) /\
  App.toggleBotStatus s = (App.setIsRunning (negb (App.isRunning s)) s, []) /\
  App.emergencyStop s =
    (App.setIsRunning false s, [App.Alert App.emergencyStopMessage]) /\
  App.isRunning (fst (App.emergencyStop s)) = false /\
  App.isRunning (fst (App.step (App.PriceTimer now randoms) s)) = App.isRunning s /\
  App.noOrderIntent (snd (App.run later (fst (App.emergencyStop s)))) = true /\
  App.noOrderIntent (snd (App.run later (fst (App.toggleBotStatus s)))) = true /\
  App.activeOrders (fst (App.run later (fst (App.emergencyStop s)))) = [] /\
  App.activeOrders (fst (App.run later (fst (App.toggleBotStatus s)))) = [] /\
  App.noOrderIntent
    (snd (App.run (events ++ App.ClickEmergencyStop :: later) App.initialState))
  = true.
Proof.
  cbv zeta.
  assert (Hempty : App.activeOrders (fst (App.run events App.initialState)) = []).
  { rewrite run_keeps_orders. reflexivity. }
  split; [exact Hempty |].
  split; [rewrite Hempty; constructor |].
  do 4 (split; [reflexivity |]).
  split; [apply run_emits_no_order_intent |].
  split; [apply run_emits_no_order_intent |].
  split; [rewrite run_keeps_orders; exact Hempty |].
  split; [rewrite run_keeps_orders; exact Hempty |].
  apply run_emits_no_order_intent.
Qed.

End AppProofs.

(** ** Order ledger: properties *)

Module OrderLedgerProofs.
Import OrderLedger.

Lemma terminal_allows_nothing (from to : OrderStatus) :
  terminal from = true -> allowed from to = false.
Proof. destruct from, to; simpl; congruence. Qed.

Lemma applyOrKeep_terminal (ledger : gmap Z OrderStatus) (op : Operation)
    (orderId : Z) (st : OrderStatus) :
  ledger !! orderId = Some st -> terminal st = true ->
  applyOrKeep ledger op !! orderId = Some st.
Proof.
  intros Hst Hterm. unfold applyOrKeep, apply.
  destruct op as [i | i to].
  - destruct (ledger !! i) eqn:Hi; [exact Hst |].
    rewrite lookup_insert_ne; [exact Hst |]. intros ->. congruence.
  - destruct (ledger !! i) as [from |] eqn:Hi; [| exact Hst].
    destruct (allowed from to) eqn:Hallowed; [| exact Hst].
    rewrite lookup_insert_ne; [exact Hst |]. intros ->.
    rewrite Hst in Hi. injection Hi as <-.
    rewrite (terminal_allows_nothing st to Hterm) in Hallowed. discriminate.
Qed.

Lemma applyAll_terminal (ops : list Operation) (ledger : gmap Z OrderStatus)
    (orderId : Z) (st : OrderStatus) :
  ledger !! orderId = Some st -> terminal st = true ->
  applyAll ops ledger !! orderId = Some st.
Proof.
  revert ledger. induction ops as [| op rest IH]; intros ledger Hst Hterm.
  - exact Hst.
  - unfold applyAll. cbn [fold_left]. apply IH; [| exact Hterm].
    apply applyOrKeep_terminal; assumption.
Qed.

(** C9: in the ledger's state machine a terminal state is final.  A
    transition requested for an order that is FILLED, CANCELLED or
    REJECTED is refused with the [IllegalTransition] logic error (so it
    is not a silent no-op), the ledger is left as it was, and no sequence
    of operations changes the order's state afterwards. *)
Theorem terminal_states_are_final
    (ledger : gmap Z OrderStatus) (orderId : Z) (st to : OrderStatus)
    (ops : list Operation) :
  ledger !! orderId = Some st -> terminal st = true ->
  apply (Transition orderId to) ledger = inl (IllegalTransition orderId st to) /\
  applyOrKeep ledger (Transition orderId to) = ledger /\
  applyAll ops ledger !! orderId = Some st.
Proof.
  intros Hst Hterm.
  assert (Happly : apply (Transition orderId to) ledger
                   = inl (IllegalTransition orderId st to)).
  { unfold apply. rewrite Hst, (terminal_allows_nothing st to Hterm). reflexivity. }
  split; [exact Happly |]. split.
  - unfold applyOrKeep. rewrite Happly. reflexivity.
  - apply applyAll_terminal; assumption.
Qed.

Lemma terminal_states_are_final_witness :
  apply (Transition 7 CANCELLED) {[ 7 := FILLED ]} =
    inl (IllegalTransition 7 FILLED CANCELLED) /\
  applyAll [Transition 7 OPEN; Submit 7; Transition 7 CANCELLED; Submit 8]
           {[ 7 := FILLED ]} !! 7 = Some FILLED.
Proof.
  assert (Hst : ({[ 7 := FILLED ]} : gmap Z OrderStatus) !! 7 = Some FILLED)
    by apply lookup_singleton_eq.
  destruct (terminal_states_are_final {[ 7 := FILLED ]} 7 FILLED CANCELLED
              [Transition 7 OPEN; Submit 7; Transition 7 CANCELLED; Submit 8]
              Hst eq_refl) as (H1 & _ & H3).
  split; assumption.
Defined.

End OrderLedgerProofs.

(** ** Settings forms: properties *)

Module FormProofs.
Import Js GridSettingsHook Text.

(** *** The field sanitizer *)

Lemma allChars_app (p : ascii -> bool) (s t : string) :
  allChars p (s +:+ t) = allChars p s && allChars p t.
Proof.
  induction s as [| c s IH]; [reflexivity |].
  rewrite SigningProofs.string_app_cons. cbn [allChars].
  rewrite IH, andb_assoc. reflexivity.
Qed.

Lemma countChar_app (c : ascii) (s t : string) :
  countChar c (s +:+ t) = (countChar c s + countChar c t)%nat.
Proof.
  induction s as [| d s IH]; [reflexivity |].
  rewrite SigningProofs.string_app_cons. cbn [countChar]. rewrite IH. lia.
Qed.

Lemma keepDigitsAndDots_all (value : string) :
  allChars GridField.isDigitOrDot (GridField.keepDigitsAndDots value) = true.
Proof.
  induction value as [| c rest IH]; [reflexivity |].
  cbn [GridField.keepDigitsAndDots].
  destruct (GridField.isDigitOrDot c) eqn:Hc; [| exact IH].
  cbn [allChars]. rewrite Hc, IH. reflexivity.
Qed.

Lemma keepDigitsAndDots_fixed (s : string) :
  allChars GridField.isDigitOrDot s = true -> GridField.keepDigitsAndDots s = s.
Proof.
  induction s as [| c rest IH]; [reflexivity |].
  cbn [allChars GridField.keepDigitsAndDots].
  intros [Hc Hrest]%andb_true_iff. rewrite Hc, (IH Hrest). reflexivity.
Qed.

Lemma splitDot_parts (s : string) :
  GridField.splitDot s =
  upToDot s :: match afterDot s with
               | Some rest => GridField.splitDot rest
               | None => []
               end.
Proof.
  induction s as [| c rest IH]; [reflexivity |].
  cbn [GridField.splitDot upToDot afterDot].
  destruct (Ascii.eqb c "."%char); [reflexivity |].
  rewrite IH. reflexivity.
Qed.

(** The sanitized text in closed form: everything before the first dot,
    then, if there is a dot, the dot and everything up to the next one. *)
Lemma sanitize_closed (value : string) :
  GridField.sanitize value =
  upToDot (GridField.keepDigitsAndDots value) +:+
  match afterDot (GridField.keepDigitsAndDots value) with
  | Some rest => "." +:+ upToDot rest
  | None => ""
  end.
Proof.
  unfold GridField.sanitize. cbv zeta.
  rewrite (splitDot_parts (GridField.keepDigitsAndDots value)).
  destruct (afterDot (GridField.keepDigitsAndDots value)) as [rest |].
  - rewrite (splitDot_parts rest). reflexivity.
  - reflexivity.
Qed.

Lemma upToDot_no_dot (s : string) : countChar "."%char (upToDot s) = O.
Proof.
  induction s as [| c rest IH]; [reflexivity |].
  cbn [upToDot]. destruct (Ascii.eqb c "."%char) eqn:Hc; [reflexivity |].
  cbn [countChar]. rewrite Hc, IH. reflexivity.
Qed.

Lemma upToDot_all (p : ascii -> bool) (s : string) :
  allChars p s = true -> allChars p (upToDot s) = true.
Proof.
  induction s as [| c rest IH]; [reflexivity |].
  cbn [allChars upToDot]. intros [Hc Hrest]%andb_true_iff.
  destruct (Ascii.eqb c "."%char); [reflexivity |].
  cbn [allChars]. rewrite Hc, (IH Hrest). reflexivity.
Qed.

Lemma afterDot_all (p : ascii -> bool) (s rest : string) :
  allChars p s = true -> afterDot s = Some rest -> allChars p rest = true.
Proof.
  induction s as [| c tl IH]; [discriminate 2 |].
  cbn [allChars afterDot]. intros [Hc Htl]%andb_true_iff.
  destruct (Ascii.eqb c "."%char).
  - intros [= <-]. exact Htl.
  - apply IH, Htl.
Qed.

Lemma upToDot_fixed (s : string) :
  countChar "."%char s = O -> upToDot s = s /\ afterDot s = None.
Proof.
  induction s as [| c rest IH]; [split; reflexivity |].
  cbn [countChar upToDot afterDot].
  destruct (Ascii.eqb c "."%char); [discriminate |].
  cbn [Nat.add]. intros Hrest. destruct (IH Hrest) as [-> ->]. split; reflexivity.
Qed.

Lemma upToDot_app_dot (s t : string) :
  countChar "."%char s = O ->
  upToDot (s +:+ "." +:+ t) = s /\ afterDot (s +:+ "." +:+ t) = Some t.
Proof.
  induction s as [| c rest IH]; [split; reflexivity |].
  rewrite SigningProofs.string_app_cons. cbn [countChar upToDot afterDot].
  destruct (Ascii.eqb c "."%char); [discriminate |].
  cbn [Nat.add]. intros Hrest. destruct (IH Hrest) as [-> ->]. split; reflexivity.
Qed.

Lemma sanitize_all (value : string) :
  allChars GridField.isDigitOrDot (GridField.sanitize value) = true.
Proof.
  rewrite sanitize_closed.
  pose proof (keepDigitsAndDots_all value) as Hall.
  rewrite allChars_app, (upToDot_all _ _ Hall).
  destruct (afterDot (GridField.keepDigitsAndDots value)) as [rest |] eqn:Hrest;
    [| reflexivity].
  rewrite allChars_app, (upToDot_all _ _ (afterDot_all _ _ _ Hall Hrest)).
  reflexivity.
Qed.

Lemma sanitize_one_dot (value : string) :
  (countChar "."%char (GridField.sanitize value) <= 1)%nat.
Proof.
  rewrite sanitize_closed, countChar_app, upToDot_no_dot.
  destruct (afterDot (GridField.keepDigitsAndDots value)) as [rest |];
    [| cbn; lia].
  rewrite countChar_app, upToDot_no_dot. cbn. lia.
Qed.

Lemma sanitize_idempotent (value : string) :
  GridField.sanitize (GridField.sanitize value) = GridField.sanitize value.
Proof.
  rewrite (sanitize_closed (GridField.sanitize value)).
  rewrite (keepDigitsAndDots_fixed _ (sanitize_all value)).
  rewrite (sanitize_closed value).
  destruct (afterDot (GridField.keepDigitsAndDots value)) as [rest |].
  - destruct (upToDot_app_dot (upToDot (GridField.keepDigitsAndDots value))
                (upToDot rest) (upToDot_no_dot _)) as [-> ->].
    destruct (upToDot_fixed (upToDot rest) (upToDot_no_dot _)) as [-> _].
    reflexivity.
  - rewrite SigningProofs.string_app_empty_r.
    destruct (upToDot_fixed (upToDot (GridField.keepDigitsAndDots value))
                (upToDot_no_dot _)) as [-> ->].
    rewrite SigningProofs.string_app_empty_r. reflexivity.
Qed.

(** X2: whatever is typed into a numeric field, the text [handleChange]
    shows and schedules consists of decimal digits and at most one dot
    (so a sign, an exponent, a comma or a second dot never survive), and
    feeding that text back to [handleChange] leaves it unchanged. *)
Theorem handleChange_sanitizes (value : string)
    (st st' : GridField.FieldState) :
  let shown := GridField.localValue (GridField.handleChange value st) in
  GridField.pending (GridField.handleChange value st) = Some shown /\
  allChars GridField.isDigitOrDot shown = true /\
  (countChar "."%char shown <= 1)%nat /\
  countChar "-"%char shown = O /\
  GridField.handleChange shown st' = GridField.handleChange value st.
Proof.
  cbv zeta. unfold GridField.handleChange. cbn [GridField.localValue GridField.pending].
  split; [reflexivity |]. split; [apply sanitize_all |].
  split; [apply sanitize_one_dot |]. split.
  - pose proof (sanitize_all value) as Hall.
    induction (GridField.sanitize value) as [| c rest IH]; [reflexivity |].
    cbn [allChars] in Hall. apply andb_true_iff in Hall as [Hc Hrest].
    cbn [countChar]. rewrite (IH Hrest).
    destruct (Ascii.eqb_spec c "-"%char) as [-> | _]; [discriminate Hc | reflexivity].
  - rewrite sanitize_idempotent. reflexivity.
Qed.

(** *** The settings form component *)
Import SettingsForm.

Lemma removeCommas_idempotent (value : string) :
  removeCommas (removeCommas value) = removeCommas value.
Proof.
  induction value as [| c rest IH]; [reflexivity |].
  cbn [removeCommas]. destruct (Ascii.eqb c ","%char) eqn:Hc; [exact IH |].
  cbn [removeCommas]. rewrite Hc, IH. reflexivity.
Qed.

Lemma getField_single_same (f : Field) (v : float) (s : GridSettings) :
  getField f (spread s (single f v)) = v.
Proof. destruct f; reflexivity. Qed.

Lemma getField_single_other (f g : Field) (v : float) (s : GridSettings) :
  g <> f -> getField g (spread s (single f v)) = getField g s.
Proof. destruct f, g; intros Hne; try reflexivity; contradiction Hne; reflexivity. Qed.

Lemma spread_allFields (s t : GridSettings) :
  spread s (SettingsFlow.allFields t) = t.
Proof. destruct t; reflexivity. Qed.

(** X3: typing into a field of the settings form changes at most that
    field of the held settings.  The text is ignored, and the state left
    exactly as it was, when it is empty or when [parseFloat] of the text
    without commas is NaN; in every other case the parsed number is
    stored in that field and the settings are marked dirty.  The other
    five fields keep their values and a stored number is never replaced
    by NaN.  Commas in the text do not matter as long as something
    besides commas was typed. *)
Theorem typeInto_changes_one_field (parseFloat : string -> float)
    (field : Field) (value : string) (st : HookState)
    (Hheld : isNaN (getField field (settings st)) = false) :
  let st' := typeInto parseFloat field value st in
  let parsed := parseFloat (removeCommas value) in
  (if String.eqb value "" || isNaN parsed
   then st' = st
   else isDirty st' = true /\ getField field (settings st') = parsed) /\
  (forall other, other <> field ->
     getField other (settings st') = getField other (settings st)) /\
  isNaN (getField field (settings st')) = false /\
  typeInto parseFloat field "" st = st /\
  (removeCommas value <> "" ->
   typeInto parseFloat field (removeCommas value) st = st').
Proof.
  cbv zeta. unfold typeInto, handleNumberInput. cbv zeta.
  split; [| split; [| split; [| split]]].
  - destruct (String.eqb value ""); [reflexivity |].
    destruct (isNaN (parseFloat (removeCommas value))); cbn [negb orb];
      [reflexivity |].
    unfold updateSettings. cbn [settings isDirty].
    split; [reflexivity | apply getField_single_same].
  - intros other Hother.
    destruct (String.eqb value ""); [reflexivity |].
    destruct (isNaN (parseFloat (removeCommas value))); cbn [negb];
      [reflexivity |].
    unfold updateSettings. cbn [settings].
    apply getField_single_other, Hother.
  - destruct (String.eqb value ""); [exact Hheld |].
    destruct (isNaN (parseFloat (removeCommas value))) eqn:Hnan; cbn [negb];
      [exact Hheld |].
    unfold updateSettings. cbn [settings].
    rewrite getField_single_same. exact Hnan.
  - reflexivity.
  - intros Hne. rewrite removeCommas_idempotent.
    destruct (String.eqb_spec (removeCommas value) "") as [Heq | _];
      [contradiction |].
    destruct (String.eqb_spec value "") as [-> | _];
      [contradiction Hne; reflexivity | reflexivity].
Qed.

Lemma typeInto_changes_one_field_witness :
  isNaN (getField FGridNumber (settings initialState)) = false /\
  isDirty (typeInto (fun _ => 12%float) FGridNumber "12" initialState) = true /\
  getField FGridNumber
    (settings (typeInto (fun _ => 12%float) FGridNumber "12" initialState))
  = 12%float /\
  getField FUpperLimit
    (settings (typeInto (fun _ => 12%float) FGridNumber "12" initialState))
  = 30000%float.
Proof.
  split; [reflexivity |].
  destruct (typeInto_changes_one_field (fun _ => 12%float) FGridNumber "12"
              initialState eq_refl) as (Hstored & Hothers & _).
  split; [exact (proj1 Hstored) |].
  split; [exact (proj2 Hstored) |].
  rewrite (Hothers FUpperLimit); [reflexivity | discriminate].
Defined.

(** *** Settings inside the application *)
Import SettingsFlow.

Section FlowFacts.
Variable stringifySettings : GridSettings -> string.
Variable stringifyAi : AiOptimization -> string.
Variable toISOString : Z -> string.
Variable Number : string -> float.
Variable toLocaleString : float -> string.

Lemma handleSettingsUpdate_settings (newSettings : GridSettings) (st : State) :
  let st' := handleSettingsUpdate stringifySettings newSettings st in
  localSettings st' = newSettings /\
  settings (hook st') = newSettings /\
  isDirty (hook st') = true /\
  localStorage st' !! "gridBotSettings" = Some (stringifySettings newSettings).
Proof.
  cbv zeta. unfold handleSettingsUpdate, updateSettings.
  cbn [localSettings hook settings isDirty localStorage].
  rewrite spread_allFields, lookup_insert_eq. repeat split.
Qed.

Lemma setField_same (f : Field) (s : GridSettings) :
  setField f (getField f s) s = s.
Proof. destruct f, s; reflexivity. Qed.

Lemma setField_numbers (f : Field) (v : float) (s : GridSettings) :
  isNaN v = false ->
  (forall g, isNaN (getField g s) = false) ->
  forall g, isNaN (getField g (setField f v s)) = false.
Proof.
  intros Hv Hs g. unfold setField.
  destruct f, g;
    first [ exact Hv
          | exact (Hs FUpperLimit) | exact (Hs FLowerLimit)
          | exact (Hs FGridNumber) | exact (Hs FInitialInvestment)
          | exact (Hs FStopLoss) | exact (Hs FTakeProfitLevel) ].
Qed.
End FlowFacts.

(** X4: when the optimization timer fires, the settings held by the
    hook become the settings captured at the click with the three fixed
    values (upper 31500, lower 24500, 14 grids), whatever the hook holds
    at that moment: every edit made during the two seconds is
    overwritten.  The result is always a valid configuration with the
    fifteen levels 24500, 25000, ..., 31500.  The callback itself leaves
    the component's own copy of the settings and the stored settings as
    they are. *)
Theorem optimization_overwrites_settings
    (stringifyAi : AiOptimization -> string) (toISOString : Z -> string)
    (captured : GridSettings * AiOptimization) (now now' : Z) (st : State) :
  let st' := fst (optimizationTimer stringifyAi toISOString captured now now' st) in
  settings (hook st') = optimizedSettings (fst captured) /\
  isDirty (hook st') = true /\
  validConfiguration (settings (hook st')) = true /\
  calculateGridLines (settings (hook st')) =
    Normal [24500; 25000; 25500; 26000; 26500; 27000; 27500; 28000; 28500;
            29000; 29500; 30000; 30500; 31000; 31500]%float /\
  localSettings st' = localSettings st /\
  localStorage st' !! "gridBotSettings" = localStorage st !! "gridBotSettings" /\
  optimizationInProgress (aiOptimization st') = false /\
  enabled (aiOptimization st') = enabled (snd captured).
Proof.
  destruct captured as [gridSettings ai]. cbv zeta.
  unfold optimizationTimer, updateSettings.
  cbn [fst snd hook settings isDirty localSettings localStorage aiOptimization
       optimizationInProgress enabled].
  rewrite spread_allFields.
  split; [reflexivity |]. split; [reflexivity |].
  split; [reflexivity |]. split; [vm_compute; reflexivity |].
  split; [reflexivity |]. split; [| split; reflexivity].
  apply lookup_insert_ne. discriminate.
Qed.

(** X5: a change committed by a field of the settings form replaces the
    hook's settings by the component's own copy with that one field
    changed, stores the same object and leaves both copies equal.  What
    the hook held before is discarded: after an optimization, the next
    committed field brings back the bounds and the grid count the
    component's copy had, and nothing of the optimized values is left. *)
Theorem field_change_discards_optimization
    (stringifySettings : GridSettings -> string)
    (stringifyAi : AiOptimization -> string) (toISOString : Z -> string)
    (captured : GridSettings * AiOptimization) (now now' : Z)
    (f : Field) (v : float) (st : State) :
  let optimized :=
    fst (optimizationTimer stringifyAi toISOString captured now now' st) in
  let st' := fieldChanged stringifySettings f v optimized in
  settings (hook st') = setField f v (localSettings st) /\
  localSettings st' = settings (hook st') /\
  localStorage st' !! "gridBotSettings" =
    Some (stringifySettings (setField f v (localSettings st))) /\
  getField f (settings (hook st')) = v /\
  (forall g, g <> f ->
     getField g (settings (hook st')) = getField g (localSettings st)).
Proof.
  cbv zeta. unfold fieldChanged.
  destruct (handleSettingsUpdate_settings stringifySettings
              (setField f v (localSettings
                 (fst (optimizationTimer stringifyAi toISOString captured
                         now now' st))))
              (fst (optimizationTimer stringifyAi toISOString captured
                      now now' st))) as (Hlocal & Hhook & _ & Hstore).
  rewrite Hlocal, Hhook, Hstore.
  destruct captured as [gridSettings ai].
  cbn [optimizationTimer fst localSettings].
  split; [reflexivity |]. split; [reflexivity |]. split; [reflexivity |].
  split; [apply getField_single_same |].
  intros g Hg. apply getField_single_other, Hg.
Qed.

(** X6: the values a form field commits are numbers.  If no field of
    the rendered settings is NaN, then after the debounce timer or the
    blur handler of a field has run, no field of the component's
    settings or of the hook's settings is NaN, whatever was typed; and
    leaving a field whose text holds no digit or dot commits the
    rendered settings unchanged, while still marking them dirty. *)
Theorem form_fields_commit_numbers
    (stringifySettings : GridSettings -> string)
    (Number : string -> float) (toLocaleString : float -> string)
    (f : Field) (rendered : GridSettings)
    (fs : GridField.FieldState) (st : State)
    (Hrendered : forall g, isNaN (getField g rendered) = false)
    (Hheld : forall g, isNaN (getField g (localSettings st)) = false)
    (Hhook : forall g, isNaN (getField g (settings (hook st))) = false) :
  let timed := snd (fieldTimer stringifySettings Number f rendered fs st) in
  let left := snd (fieldBlur stringifySettings Number toLocaleString
                     f rendered fs st) in
  (forall g, isNaN (getField g (localSettings timed)) = false) /\
  (forall g, isNaN (getField g (settings (hook timed))) = false) /\
  (forall g, isNaN (getField g (localSettings left)) = false) /\
  (forall g, isNaN (getField g (settings (hook left))) = false) /\
  settings (hook left) = localSettings left /\
  (GridField.keepDigitsAndDots (GridField.localValue fs) = "" ->
   localSettings left = rendered /\ isDirty (hook left) = true).
Proof.
  cbv zeta.
  assert (Htimed :
    forall g, isNaN (getField g (localSettings
       (snd (fieldTimer stringifySettings Number f rendered fs st)))) = false /\
       isNaN (getField g (settings (hook
       (snd (fieldTimer stringifySettings Number f rendered fs st))))) = false).
  { intros g. unfold fieldTimer, GridField.timerFires.
    destruct (GridField.pending fs) as [text |]; [| split; [apply Hheld | apply Hhook]].
    destruct (String.eqb text ""); cbn [negb andb];
      [split; [apply Hheld | apply Hhook] |].
    destruct (isNaN (Number text)) eqn:Hnan; cbn [negb];
      [split; [apply Hheld | apply Hhook] |].
    cbn [snd].
    destruct (handleSettingsUpdate_settings stringifySettings
                (setField f (Number text) rendered) st) as (-> & -> & _).
    split; apply setField_numbers; assumption. }
  assert (Hleft :
    exists v, isNaN v = false /\
      (GridField.keepDigitsAndDots (GridField.localValue fs) = "" ->
       v = getField f rendered) /\
      snd (fieldBlur stringifySettings Number toLocaleString f rendered fs st) =
      handleSettingsUpdate stringifySettings (setField f v rendered) st).
  { unfold fieldBlur, GridField.handleBlur. cbv zeta.
    destruct (String.eqb_spec
                (GridField.keepDigitsAndDots (GridField.localValue fs)) "")
      as [Hempty | Hfull]; cbn [orb].
    - exists (getField f rendered). repeat split. apply Hrendered.
    - destruct (isNaN (Number (GridField.keepDigitsAndDots
                                 (GridField.localValue fs)))) eqn:Hnan.
      + exists (getField f rendered). repeat split. apply Hrendered.
      + eexists. split; [exact Hnan |]. split; [contradiction | reflexivity]. }
  destruct Hleft as (v & Hv & Hempty & ->).
  destruct (handleSettingsUpdate_settings stringifySettings
              (setField f v rendered) st) as (-> & -> & -> & _).
  split; [intros g; apply Htimed |]. split; [intros g; apply Htimed |].
  split; [apply setField_numbers; assumption |].
  split; [apply setField_numbers; assumption |].
  split; [reflexivity |].
  intros Hnone. rewrite (Hempty Hnone), setField_same. split; reflexivity.
Qed.

Lemma form_fields_commit_numbers_witness :
  localSettings
    (snd (fieldBlur (fun _ => "{}") (fun _ => 12%float) (fun _ => "12")
            FGridNumber defaultSettings
            (GridField.mkFieldState "abc" None)
            (mkState defaultSettings initialState
               (mkAi false "1h" 30 "medium" false None) false ∅)))
  = defaultSettings.
Proof.
  refine (proj1 (proj2 (proj2 (proj2 (proj2 (proj2
    (form_fields_commit_numbers (fun _ => "{}") (fun _ => 12%float)
       (fun _ => "12") FGridNumber defaultSettings
       (GridField.mkFieldState "abc" None)
       (mkState defaultSettings initialState
          (mkAi false "1h" 30 "medium" false None) false ∅)
       _ _ _))))) eq_refl)).
  - intros g; destruct g; reflexivity.
  - intros g; destruct g; reflexivity.
  - intros g; destruct g; reflexivity.
Defined.

End FormProofs.

(** ** Requests, replies and errors: further properties *)

Module RequestProofs.
Import Js Http Text Samples.

(** *** Error replies seen by the signing client *)

Lemma includes_app_r (needle before haystack : string) :
  includes needle haystack = true ->
  includes needle (before +:+ haystack) = true.
Proof.
  intros Hin. induction before as [| c rest IH]; [exact Hin |].
  rewrite SigningProofs.string_app_cons. cbn [includes].
  rewrite IH. apply orb_true_r.
Qed.

Lemma handleError_plain (m defaultMessage : string) :
  DirectClient.handleError (newError m) defaultMessage =
  if includes "Failed to fetch" m then newError DirectClient.networkMessage
  else newError m.
Proof. reflexivity. Qed.

Lemma networkMessage_plain :
  includes "Failed to fetch" DirectClient.networkMessage = false.
Proof. vm_compute. reflexivity. Qed.

(** The message [makeRequest] builds for an answer outside 2xx. *)
Lemma makeRequest_error_status (c : DirectClient.BinanceApiClient)
    (endpoint : string) (params : list (string * string)) (now latency : Z)
    (r : Response) :
  DirectClient.apiSecret c <> "" -> latency < 10000 -> ok r = false ->
  DirectClient.makeRequest c endpoint params now (Answers latency r) =
  Throw (DirectClient.handleError
           (newError ("APIリクエストが失敗しました (" +:+ pretty (status r)
                      +:+ "): " +:+ text r))
           DirectClient.requestFailed).
Proof.
  intros Hsecret Hfast Hok. unfold DirectClient.makeRequest.
  rewrite ClientProofs.makeRequestCall_cases. cbv zeta.
  apply String.eqb_neq in Hsecret. rewrite Hsecret. cbn [bind].
  unfold fetch. cbn [init signedInit signalTimeout latencyOf].
  replace (10000 <=? latency) with false by (symmetry; apply Z.leb_gt; lia).
  cbn [unaborted]. unfold DirectClient.readResponse.
  cbn [await bind]. rewrite Hok. cbn [negb tryCatch].
  reflexivity.
Qed.

(** X7: an answer of the exchange outside 2xx reaches the caller of the
    signing client as a plain [Error] whose message is the fixed text
    with the status and the raw body; the exchange's error code and
    message inside the body are never decoded.  The one exception: when
    that message contains the words [Failed to fetch] (for instance
    because the body does), the error is replaced by the
    network-connection error, although the exchange did answer.
    [getCurrentPrice] passes the same error on. *)
Theorem error_reply_is_reported_raw
    (parseFloatPrice : Json -> completion float)
    (c : DirectClient.BinanceApiClient) (endpoint symbol : string)
    (params : list (string * string)) (now latency : Z) (r : Response)
    (Hsecret : DirectClient.apiSecret c <> "")
    (Hfast : latency < 10000)
    (Hok : ok r = false) :
  let failure :=
    "APIリクエストが失敗しました (" +:+ pretty (status r) +:+ "): " +:+ text r in
  let reported :=
    if includes "Failed to fetch" failure
    then newError DirectClient.networkMessage else newError failure in
  DirectClient.makeRequest c endpoint params now (Answers latency r) =
    Throw reported /\
  DirectClient.getCurrentPrice parseFloatPrice c symbol now (Answers latency r) =
    Throw reported /\
  (includes "Failed to fetch" (text r) = true ->
   reported = newError DirectClient.networkMessage) /\
  code reported = None /\ msg reported = None.
Proof.
  cbv zeta.
  set (failure := "APIリクエストが失敗しました (" +:+ pretty (status r)
                  +:+ "): " +:+ text r).
  assert (Hmake : forall endpoint' params',
    DirectClient.makeRequest c endpoint' params' now (Answers latency r) =
    Throw (if includes "Failed to fetch" failure
           then newError DirectClient.networkMessage else newError failure)).
  { intros endpoint' params'.
    rewrite (makeRequest_error_status c endpoint' params' now latency r
               Hsecret Hfast Hok).
    fold failure. rewrite handleError_plain. reflexivity. }
  split; [apply Hmake |]. split.
  - unfold DirectClient.getCurrentPrice. rewrite Hmake. cbn [bind tryCatch].
    destruct (includes "Failed to fetch" failure) eqn:Hin.
    + rewrite handleError_plain, networkMessage_plain. reflexivity.
    + rewrite handleError_plain, Hin. reflexivity.
  - split.
    + intros Hbody.
      assert (Hin : includes "Failed to fetch" failure = true).
      { unfold failure. rewrite <- !SigningProofs.string_app_assoc.
        apply includes_app_r, Hbody. }
      rewrite Hin. reflexivity.
    + destruct (includes "Failed to fetch" failure); split; reflexivity.
Qed.

Lemma error_reply_is_reported_raw_witness :
  DirectClient.makeRequest directClient "/account" [] sampleNow
    (Answers 100 unauthorized) =
  Throw (newError ("APIリクエストが失敗しました (401): "
                   +:+ "Invalid API-key, IP, or permissions for action.")).
Proof.
  refine (eq_trans (proj1 (error_reply_is_reported_raw (fun _ => Normal 0%float)
            directClient "/account" "BTCUSDT" [] sampleNow 100 unauthorized
            _ _ eq_refl)) _).
  - discriminate.
  - reflexivity.
  - vm_compute. reflexivity.
Defined.

(** *** Requests of the second client *)

Lemma proxy_makeRequest_cases (c : ProxyClient.BinanceApiClient)
    (endpoint method : string) (body : option ProxyClient.OrderParams)
    (net : Network) :
  ProxyClient.makeRequest c endpoint method body net =
  match net with
  | Answers _ r =>
      if ok r then responseJson r
      else Throw (newError ("HTTP error! status: " +:+ pretty (status r)))
  | Fails _ e => Throw e
  end.
Proof.
  unfold ProxyClient.makeRequest, fetch. cbn [ProxyClient.makeRequestCall init signalTimeout].
  destruct net as [l r | l e]; cbn [unaborted await bind tryCatch]; [| reflexivity].
  destruct (ok r); cbn [negb]; [| reflexivity].
  destruct (responseJson r); reflexivity.
Qed.

(** X8: the second client places and cancels orders, and reads the
    balance, without any credential: the requests are the same for every
    API key and secret, carry the [Content-Type] header only and no
    signature, and an order is sent as the JSON text of its parameters.
    An answer outside 2xx is reported by its status alone: the body, in
    which the exchange gives its reason, is dropped, and no timer bounds
    the wait. *)
Theorem order_requests_carry_no_credentials
    (apiKey apiSecret apiKey' apiSecret' baseUrl symbol : string)
    (orderParams : ProxyClient.OrderParams) (orderId latency : Z)
    (r : Response) :
  let c := ProxyClient.mkClient apiKey apiSecret baseUrl in
  let c' := ProxyClient.mkClient apiKey' apiSecret' baseUrl in
  ProxyClient.createOrderCall c orderParams =
    ProxyClient.createOrderCall c' orderParams /\
  ProxyClient.cancelOrderCall c symbol orderId =
    ProxyClient.cancelOrderCall c' symbol orderId /\
  ProxyClient.getAccountBalanceCall c = ProxyClient.getAccountBalanceCall c' /\
  url (ProxyClient.createOrderCall c orderParams) = baseUrl +:+ "/orders" /\
  init (ProxyClient.createOrderCall c orderParams) =
    mkInit "POST" [("Content-Type", "application/json")] None (Some "include")
           None (Some (ProxyClient.stringifyOrderParams orderParams)) /\
  url (ProxyClient.cancelOrderCall c symbol orderId) =
    baseUrl +:+ "/orders/" +:+ pretty orderId +:+ "?symbol=" +:+ symbol /\
  init (ProxyClient.cancelOrderCall c symbol orderId) =
    mkInit "DELETE" [("Content-Type", "application/json")] None (Some "include")
           None None /\
  ProxyClient.createOrder c orderParams (Answers latency r) =
    (if ok r then responseJson r
     else Throw (newError ("HTTP error! status: " +:+ pretty (status r)))) /\
  ProxyClient.cancelOrder c symbol orderId (Answers latency r) =
    (if ok r then responseJson r
     else Throw (newError ("HTTP error! status: " +:+ pretty (status r)))) /\
  settleTime (Answers latency r) (ProxyClient.createOrderCall c orderParams) = latency.
Proof.
  cbv zeta. do 7 (split; [reflexivity |]).
  unfold ProxyClient.createOrder, ProxyClient.cancelOrder.
  rewrite !proxy_makeRequest_cases.
  split; [| split; [| reflexivity]].
  - destruct (ok r); [destruct (responseJson r) |]; reflexivity.
  - destruct (ok r); [destruct (responseJson r) |]; reflexivity.
Qed.

(** *** Query strings *)

(** The characters the form serializer lets through or produces. *)
Lemma formEncode_chars (s : string) :
  allChars (fun c => formUnreserved c || Ascii.eqb c "+"%char
                     || Ascii.eqb c "%"%char) (formEncode s) = true.
Proof.
  induction s as [| c rest IH]; [reflexivity |].
  cbn [formEncode]. destruct (formUnreserved c) eqn:Hc.
  - cbn [allChars]. rewrite Hc, IH. reflexivity.
  - destruct (Ascii.eqb c " "%char).
    + cbn [allChars]. rewrite IH. reflexivity.
    + cbv zeta. cbn [allChars]. rewrite IH, !andb_true_r.
      clear. destruct c as [[] [] [] [] [] [] [] []]; vm_compute; reflexivity.
Qed.

Lemma allChars_countChar (p : ascii -> bool) (c : ascii) (s : string) :
  allChars p s = true -> p c = false -> countChar c s = O.
Proof.
  intros Hall Hc. induction s as [| d rest IH]; [reflexivity |].
  cbn [allChars] in Hall. apply andb_true_iff in Hall as [Hd Hrest].
  cbn [countChar]. rewrite (IH Hrest).
  destruct (Ascii.eqb_spec d c) as [-> | _]; [congruence | reflexivity].
Qed.

Lemma formEncode_no_separator (s : string) :
  countChar "&"%char (formEncode s) = O /\ countChar "="%char (formEncode s) = O.
Proof.
  split; apply (allChars_countChar _ _ _ (formEncode_chars s)); reflexivity.
Qed.

Lemma urlSearchParams_separators (o : list (string * string)) :
  countChar "&"%char (urlSearchParams o) = (length o - 1)%nat /\
  countChar "="%char (urlSearchParams o) = length o.
Proof.
  unfold urlSearchParams.
  induction o as [| [k v] rest IH]; [split; reflexivity |].
  cbn [List.map fst snd length].
  destruct (formEncode_no_separator k) as [Hk1 Hk2].
  destruct (formEncode_no_separator v) as [Hv1 Hv2].
  destruct rest as [| kv rest'].
  - cbn [List.map String.concat]. rewrite !FormProofs.countChar_app, Hk1, Hk2, Hv1, Hv2.
    split; reflexivity.
  - destruct IH as [IH1 IH2].
    change (String.concat "&"
              ((formEncode k +:+ "=" +:+ formEncode v)
               :: List.map (fun kv0 => formEncode (fst kv0) +:+ "=" +:+ formEncode (snd kv0))
                    (kv :: rest')))
      with ((formEncode k +:+ "=" +:+ formEncode v) +:+ "&" +:+
            String.concat "&"
              (List.map (fun kv0 => formEncode (fst kv0) +:+ "=" +:+ formEncode (snd kv0))
                 (kv :: rest'))).
    rewrite !FormProofs.countChar_app, IH1, IH2, Hk1, Hk2, Hv1, Hv2.
    cbn [length countChar Ascii.eqb Bool.eqb Nat.add]. split; lia.
Qed.

(** X9: a parameter value cannot add a parameter to a signed request.
    The query string the signing client builds has one [=] per parameter
    and one [&] between two parameters, whatever characters keys and
    values contain; for the price request that is one [&] and two [=],
    for every symbol.  The second client and the proxy's price route
    paste the symbol into the URL as it is: a symbol holding [&] and [=]
    adds a parameter there. *)
Theorem query_values_are_encoded (params : list (string * string))
    (symbol : string) (now : Z) :
  countChar "&"%char (urlSearchParams params) = (length params - 1)%nat /\
  countChar "="%char (urlSearchParams params) = length params /\
  countChar "&"%char (priceQueryString symbol now) = 1%nat /\
  countChar "="%char (priceQueryString symbol now) = 2%nat /\
  url (ProxyClient.getCurrentPriceCall proxyClient "BTCUSDT&limit=1") =
    "https://testnet.binance.vision/api/v3/ticker?symbol=BTCUSDT&limit=1" /\
  url (ProxyServer.priceUpstreamCall "BTCUSDT&limit=1") =
    "https://api.binance.com/api/v3/ticker/price?symbol=BTCUSDT&limit=1" /\
  priceQueryString "BTCUSDT&limit=1" 1700000000000 =
    "symbol=BTCUSDT%26limit%3D1&timestamp=1700000000000".
Proof.
  destruct (urlSearchParams_separators params) as [-> ->].
  destruct (urlSearchParams_separators
              [("symbol", symbol); ("timestamp", pretty now)]) as [Hamp Heq].
  unfold priceQueryString. rewrite Hamp, Heq.
  do 4 (split; [reflexivity |]).
  split; [vm_compute; reflexivity |].
  split; vm_compute; reflexivity.
Qed.

(** *** Replies of the proxy server *)

Lemma axios_rejected_status (net : Network) (call : FetchCall) (r : Response)
    (message : string) :
  ProxyServer.axios net call = ProxyServer.AxiosRejected (Some r) message ->
  (200 <=? status r) && (status r <? 300) = false.
Proof.
  unfold ProxyServer.axios, ProxyServer.axiosSettled.
  destruct (signalTimeout (init call)) as [ms |].
  - destruct (ms <=? latencyOf net); [discriminate |].
    destruct net as [l r' | l e]; [| discriminate].
    destruct ((200 <=? status r') && (status r' <? 300)) eqn:Hst; [discriminate |].
    intros [= <- _]. exact Hst.
  - destruct net as [l r' | l e]; [| discriminate].
    destruct ((200 <=? status r') && (status r' <? 300)) eqn:Hst; [discriminate |].
    intros [= <- _]. exact Hst.
Qed.

Lemma errorReply_status (label : string) (response : option Response)
    (message : string) :
  (forall r, response = Some r -> (200 <=? status r) && (status r <? 300) = false) ->
  let reply := ProxyServer.errorReply label response message in
  (ProxyServer.replyStatus reply < 200 \/ 300 <= ProxyServer.replyStatus reply) /\
  ProxyServer.replyStatus reply <> 0 /\
  exists details, ProxyServer.replyBody reply = ProxyServer.ErrorBody label (Some details).
Proof.
  intros Hout. cbv zeta. unfold ProxyServer.errorReply.
  cbn [ProxyServer.replyStatus ProxyServer.replyBody].
  split; [| split; [| eexists; reflexivity]].
  - destruct response as [r |]; cbn [ProxyServer.errorStatus]; [| lia].
    specialize (Hout r eq_refl).
    destruct (Z.eqb_spec (status r) 0); [lia |].
    apply andb_false_iff in Hout as [H | H];
      [apply Z.leb_gt in H | apply Z.ltb_ge in H]; lia.
  - destruct response as [r |]; cbn [ProxyServer.errorStatus]; [| lia].
    destruct (Z.eqb_spec (status r) 0); lia.
Qed.


End RequestProofs.

(** ** The price query *)

Module PriceQueryProofs.
Import Js Http Samples.

Lemma fixed_messages_plain :
  includes "Failed to fetch" DirectClient.timeoutMessage = false /\
  includes "Failed to fetch" DirectClient.corsMessage = false.
Proof. split; vm_compute; reflexivity. Qed.

(** What [makeRequest] of the signing client does with a settled
    [fetch], once the request is built and the timer has not fired. *)
Lemma makeRequest_settled (c : DirectClient.BinanceApiClient)
    (endpoint : string) (params : list (string * string)) (now : Z)
    (net : Network) :
  DirectClient.apiSecret c <> "" -> latencyOf net < 10000 ->
  DirectClient.makeRequest c endpoint params now net =
  match net with
  | Fails _ e =>
      if String.eqb (name e) "AbortError"
      then Throw (newError DirectClient.timeoutMessage)
      else if String.eqb (name e) "TypeError"
              && includes "Failed to fetch" (message e)
      then Throw (newError DirectClient.corsMessage)
      else Throw (DirectClient.handleError e DirectClient.requestFailed)
  | Answers _ r =>
      if ok r then
        match json r with
        | Some data => Normal data
        | None =>
            if includes "Failed to fetch" (jsonError r)
            then Throw (newError DirectClient.networkMessage)
            else Throw (mkError "SyntaxError" (jsonError r) None None)
        end
      else
        Throw (DirectClient.handleError
                 (newError ("APIリクエストが失敗しました (" +:+ pretty (status r)
                            +:+ "): " +:+ text r))
                 DirectClient.requestFailed)
  end.
Proof.
  intros Hsecret Hfast. unfold DirectClient.makeRequest.
  rewrite ClientProofs.makeRequestCall_cases. cbv zeta.
  apply String.eqb_neq in Hsecret. rewrite Hsecret. cbn [bind].
  unfold fetch. cbn [init signedInit signalTimeout].
  replace (10000 <=? latencyOf net) with false by (symmetry; apply Z.leb_gt; lia).
  destruct net as [l r | l e]; cbn [unaborted].
  - unfold DirectClient.readResponse, responseJson. cbn [await bind].
    destruct (ok r); cbn [negb]; [| reflexivity].
    destruct (json r) as [data |]; [reflexivity |].
    cbn [tryCatch name].
    change (String.eqb "SyntaxError" "AbortError") with false.
    change (String.eqb "SyntaxError" "TypeError") with false.
    cbn [andb tryCatch]. unfold DirectClient.handleError. cbn [code message].
    destruct (includes "Failed to fetch" (jsonError r)); reflexivity.
  - unfold DirectClient.readResponse. cbn [await bind tryCatch].
    destruct (String.eqb (name e) "AbortError").
    + cbn [tryCatch]. rewrite ClientProofs.handleError_timeout. reflexivity.
    + destruct (String.eqb (name e) "TypeError"
                && includes "Failed to fetch" (message e)).
      * cbn [tryCatch]. rewrite ClientProofs.handleError_cors. reflexivity.
      * reflexivity.
Qed.

(** C7 (amended): the proxy's price route and [getCurrentPrice] of the
    second client build a GET with no signature parameter and no API-key
    header.  [getCurrentPrice] of the signing client goes through
    [makeRequest]: its URL carries the symbol, a timestamp and the
    HMAC-SHA256 signature of the query string, and its only header is
    the API key.  Its outcome, for every settled network: with an empty
    secret the signing error and no request; after 10 seconds, or on an
    aborted [fetch], the timeout error; on a [TypeError] whose message
    contains [Failed to fetch] the network error; on another rejection
    that error passed twice through [handleError]; on a status outside
    2xx the error with status and body; on a body that does not parse
    the parser's [SyntaxError] with the engine's message, replaced by the
    network error when that message contains [Failed to fetch]; on a
    parsed body the price, or the error of reading it passed through
    [handleError].  All of them are plain errors told apart by name and
    message.  The proxy answers 500 after 5 seconds, forwards a 2xx
    answer as 200 (an unparseable body as its text) and any other
    outcome as an error reply. *)
Theorem price_query_requests
    (parseFloatPrice : Json -> completion float)
    (d : DirectClient.BinanceApiClient) (p : ProxyClient.BinanceApiClient)
    (symbol : string) (now : Z) (net : Network) :
  ProxyServer.priceUpstreamCall symbol =
    {| url := ProxyServer.BINANCE_API_URL +:+ "/api/v3/ticker/price?symbol=" +:+ symbol;
       init := {| method := "get";
                  headers := [("Accept", "application/json")];
                  mode := None; credentials := None;
                  signalTimeout := Some 5000; body := None |} |} /\
  ProxyClient.getCurrentPriceCall p symbol =
    {| url := ProxyClient.baseUrl p +:+ "/ticker?symbol=" +:+ symbol;
       init := {| method := "GET";
                  headers := [("Content-Type", "application/json")];
                  mode := None; credentials := Some "include";
                  signalTimeout := None; body := None |} |} /\
  DirectClient.getCurrentPriceCall d symbol now =
    (if String.eqb (DirectClient.apiSecret d) ""
     then Throw (newError Signing.signatureFailed)
     else Normal {| url := DirectClient.baseUrl d +:+ "/ticker/price" +:+ "?"
                           +:+ priceQueryString symbol now
                           +:+ "&signature="
                           +:+ ProxyServer.generateSignature
                                 (priceQueryString symbol now)
                                 (DirectClient.apiSecret d);
                    init := signedInit d |}) /\
  headers (signedInit d) = [("X-MBX-APIKEY", DirectClient.apiKey d)] /\
  DirectClient.getCurrentPrice parseFloatPrice d symbol now net =
    (if String.eqb (DirectClient.apiSecret d) ""
     then Throw (newError Signing.signatureFailed)
     else if 10000 <=? latencyOf net
     then Throw (newError DirectClient.timeoutMessage)
     else
       match net with
       | Fails _ e =>
           if String.eqb (name e) "AbortError"
           then Throw (newError DirectClient.timeoutMessage)
           else if String.eqb (name e) "TypeError"
                   && includes "Failed to fetch" (message e)
           then Throw (newError DirectClient.corsMessage)
           else Throw (DirectClient.handleError
                         (DirectClient.handleError e DirectClient.requestFailed)
                         DirectClient.priceFailed)
       | Answers _ r =>
           if ok r then
             match json r with
             | Some data =>
                 match parseFloatPrice data with
                 | Normal price => Normal price
                 | Throw e =>
                     Throw (DirectClient.handleError e DirectClient.priceFailed)
                 end
             | None =>
                 if includes "Failed to fetch" (jsonError r)
                 then Throw (newError DirectClient.networkMessage)
                 else Throw (mkError "SyntaxError" (jsonError r) None None)
             end
           else
             let failure :=
               "APIリクエストが失敗しました (" +:+ pretty (status r) +:+ "): "
               +:+ text r in
             if includes "Failed to fetch" failure
             then Throw (newError DirectClient.networkMessage)
             else Throw (newError failure)
       end) /\
  ProxyServer.priceHandler symbol net =
    (if 5000 <=? latencyOf net
     then ProxyServer.mkReply 500
            (ProxyServer.ErrorBody "価格取得に失敗しました"
               (Some (JString "timeout of 5000ms exceeded")))
     else
       match net with
       | Answers _ r =>
           if (200 <=? status r) && (status r <? 300)
           then ProxyServer.mkReply 200
                  (ProxyServer.Data
                     (match json r with
                      | Some data => data
                      | None => JString (text r)
                      end))
           else ProxyServer.errorReply "価格取得に失敗しました" (Some r)
                  ("Request failed with status code " +:+ pretty (status r))
       | Fails _ e =>
           ProxyServer.mkReply 500
             (ProxyServer.ErrorBody "価格取得に失敗しました"
                (Some (JString (message e))))
       end) /\
  DirectClient.getCurrentPrice parseFloatPrice directClient "BTCUSDT" sampleNow
      (Answers 100 htmlResponse) =
    Throw (mkError "SyntaxError" (jsonError htmlResponse) None None) /\
  DirectClient.getCurrentPrice parseFloatPrice directClient "BTCUSDT" sampleNow
      (Answers 100 quotedFailure) =
    Throw (newError DirectClient.networkMessage).
Proof.
  assert (Hprice : forall (c : DirectClient.BinanceApiClient) (sym : string)
                          (t : Z) (n : Network),
    DirectClient.getCurrentPrice parseFloatPrice c sym t n =
    (if String.eqb (DirectClient.apiSecret c) ""
     then Throw (newError Signing.signatureFailed)
     else if 10000 <=? latencyOf n
     then Throw (newError DirectClient.timeoutMessage)
     else
       match n with
       | Fails _ e =>
           if String.eqb (name e) "AbortError"
           then Throw (newError DirectClient.timeoutMessage)
           else if String.eqb (name e) "TypeError"
                   && includes "Failed to fetch" (message e)
           then Throw (newError DirectClient.corsMessage)
           else Throw (DirectClient.handleError
                         (DirectClient.handleError e DirectClient.requestFailed)
                         DirectClient.priceFailed)
       | Answers _ r =>
           if ok r then
             match json r with
             | Some data =>
                 match parseFloatPrice data with
                 | Normal price => Normal price
                 | Throw e =>
                     Throw (DirectClient.handleError e DirectClient.priceFailed)
                 end
             | None =>
                 if includes "Failed to fetch" (jsonError r)
                 then Throw (newError DirectClient.networkMessage)
                 else Throw (mkError "SyntaxError" (jsonError r) None None)
             end
           else
             let failure :=
               "APIリクエストが失敗しました (" +:+ pretty (status r) +:+ "): "
               +:+ text r in
             if includes "Failed to fetch" failure
             then Throw (newError DirectClient.networkMessage)
             else Throw (newError failure)
       end)).
  { intros c sym t n. unfold DirectClient.getCurrentPrice.
    destruct (String.eqb_spec (DirectClient.apiSecret c) "") as [Hempty | Hsecret].
    { unfold DirectClient.makeRequest.
      rewrite ClientProofs.makeRequestCall_cases. cbv zeta.
      rewrite Hempty. vm_compute. reflexivity. }
    destruct (Z.leb_spec 10000 (latencyOf n)) as [Hlate | Hfast].
    { assert (Hcall : exists call,
        DirectClient.makeRequestCall c "/ticker/price" [("symbol", sym)] t
        = Normal call).
      { rewrite ClientProofs.makeRequestCall_cases. cbv zeta.
        apply String.eqb_neq in Hsecret. rewrite Hsecret. eexists. reflexivity. }
      destruct Hcall as [call Hcall].
      rewrite (ClientProofs.makeRequest_timeout _ _ _ _ _ _ Hcall Hlate).
      cbn [bind tryCatch]. rewrite RequestProofs.handleError_plain.
      rewrite (proj1 fixed_messages_plain). reflexivity. }
    rewrite (makeRequest_settled c "/ticker/price" [("symbol", sym)] t n
               Hsecret Hfast).
    destruct n as [l r | l e].
    - destruct (ok r).
      + destruct (json r) as [data |].
        * cbn [bind tryCatch]. destruct (parseFloatPrice data); reflexivity.
        * destruct (includes "Failed to fetch" (jsonError r)) eqn:Hin;
            cbn [bind tryCatch].
          -- rewrite RequestProofs.handleError_plain,
               RequestProofs.networkMessage_plain. reflexivity.
          -- unfold DirectClient.handleError. cbn [code message].
             rewrite Hin. reflexivity.
      + cbv zeta. rewrite RequestProofs.handleError_plain.
        destruct (includes "Failed to fetch" _) eqn:Hin; cbn [bind tryCatch].
        * rewrite RequestProofs.handleError_plain,
            RequestProofs.networkMessage_plain. reflexivity.
        * rewrite RequestProofs.handleError_plain, Hin. reflexivity.
    - destruct (String.eqb (name e) "AbortError").
      + cbn [bind tryCatch]. rewrite RequestProofs.handleError_plain.
        rewrite (proj1 fixed_messages_plain). reflexivity.
      + destruct (String.eqb (name e) "TypeError"
                  && includes "Failed to fetch" (message e)).
        * cbn [bind tryCatch]. rewrite RequestProofs.handleError_plain.
          rewrite (proj2 fixed_messages_plain). reflexivity.
        * reflexivity. }
  split; [reflexivity |]. split; [reflexivity |].
  split; [apply ClientProofs.direct_getCurrentPriceCall_cases |].
  split; [reflexivity |].
  split; [apply Hprice |].
  split.
  - unfold ProxyServer.priceHandler, ProxyServer.axios.
    cbn [ProxyServer.priceUpstreamCall init signalTimeout].
    destruct (5000 <=? latencyOf net); [reflexivity |].
    destruct net as [l r | l e]; cbn [ProxyServer.axiosSettled]; [| reflexivity].
    destruct ((200 <=? status r) && (status r <? 300)); reflexivity.
  - split; rewrite Hprice; vm_compute; reflexivity.
Qed.

End PriceQueryProofs.

(** ** The application component: further properties *)

Module AppFlowProofs.
Import Js Http Samples.

(** *** The price chart *)

Lemma samplePrices_length (now : Z) (i : nat) (price : float)
    (randoms : list float) :
  length (App.samplePrices now i price randoms) = length randoms.
Proof.
  revert i price. induction randoms as [| r rest IH]; intros i price;
    [reflexivity |].
  cbn [App.samplePrices length]. rewrite IH. reflexivity.
Qed.

Lemma samplePrices_time (now : Z) (randoms : list float) :
  forall (i k : nat) (price : float) (d : App.PriceData),
  App.samplePrices now i price randoms !! k = Some d ->
  App.time d = now - (100 - Z.of_nat (i + k)) * 600000.
Proof.
  induction randoms as [| r rest IH]; intros i k price d; [discriminate |].
  cbn [App.samplePrices]. destruct k as [| k].
  - intros [= <-]. cbn [App.time]. rewrite Nat.add_0_r. reflexivity.
  - intros Hk. rewrite (IH (S i) k _ d Hk). f_equal. f_equal. lia.
Qed.

(** X11: every refresh of the price chart replaces the whole history by
    samples generated on the spot: as many as random numbers were drawn,
    one hundred for a full run of the loop, the sample at index [k]
    dated [(100 - k)] times ten minutes before the refresh, so that the
    newest sample is ten minutes old.  The previous history, the
    settings and the exchange play no part; the refresh records its
    instant, clears the loading flag and changes nothing else. *)
Theorem price_refresh_regenerates_history (now : Z) (randoms : list float)
    (s s' : App.State) (k : nat) (d : App.PriceData)
    (Hdrawn : (100 <= length randoms)%nat)
    (Hsample : App.priceHistory (fst (App.fetchPriceData now randoms s)) !! k = Some d) :
  length (App.priceHistory (fst (App.fetchPriceData now randoms s))) = 100%nat /\
  App.time d = now - (100 - Z.of_nat k) * 600000 /\
  App.time d <= now - 600000 /\
  App.priceHistory (fst (App.fetchPriceData now randoms s')) =
    App.priceHistory (fst (App.fetchPriceData now randoms s)) /\
  App.lastUpdated (fst (App.fetchPriceData now randoms s)) = Some now /\
  App.isLoading (fst (App.fetchPriceData now randoms s)) = false /\
  snd (App.fetchPriceData now randoms s) = [] /\
  App.gridSettings (fst (App.fetchPriceData now randoms s)) = App.gridSettings s /\
  App.localStorage (fst (App.fetchPriceData now randoms s)) = App.localStorage s.
Proof.
  unfold App.fetchPriceData in *. cbn [fst snd App.setPriceHistory App.priceHistory
    App.lastUpdated App.isLoading App.gridSettings App.localStorage] in *.
  assert (Hlen : length (App.samplePrices now 0 27500 (firstn 100 randoms)) = 100%nat).
  { rewrite samplePrices_length, length_firstn. lia. }
  pose proof (samplePrices_time now _ 0 k _ d Hsample) as Htime.
  cbn [Nat.add] in Htime.
  assert (Hk : (k < 100)%nat).
  { rewrite <- Hlen. apply lookup_lt_is_Some. eexists; exact Hsample. }
  do 2 (split; [assumption |]).
  split; [rewrite Htime; lia |].
  repeat split.
Qed.

Lemma price_refresh_regenerates_history_witness :
  length (App.priceHistory
            (fst (App.fetchPriceData sampleNow fallingRandoms App.initialState)))
  = 100%nat.
Proof.
  assert (Hdrawn : (100 <= length fallingRandoms)%nat) by (vm_compute; lia).
  assert (Hsample :
    App.priceHistory
      (fst (App.fetchPriceData sampleNow fallingRandoms App.initialState)) !! 0%nat
    = Some (App.mkPriceData (sampleNow - 100 * 600000) 27400)).
  { vm_compute. reflexivity. }
  exact (proj1 (price_refresh_regenerates_history sampleNow fallingRandoms
                  App.initialState App.initialState 0 _ Hdrawn Hsample)).
Defined.

(** *** The running flag *)

Lemma step_isRunning (e : App.Event) (s : App.State) :
  App.isRunning (fst (App.step e s)) = RunningFlag.after (App.isRunning s) e.
Proof.
  destruct e as [| | now randoms | | now net]; cbn [App.step RunningFlag.after].
  - reflexivity.
  - destruct (App.isRunning s) eqn:Hrun; [reflexivity | exact Hrun].
  - reflexivity.
  - unfold App.savePermanently.
    destruct (negb (String.eqb (App.apiKey (App.apiSettings s)) "")
              && negb (String.eqb (App.apiSecret (App.apiSettings s)) ""));
      reflexivity.
  - unfold App.handleApiSettingsSave.
    rewrite ClientProofs.proxy_validateCredentials_result.
    destruct (accepted _ net); reflexivity.
Qed.

Lemma step_keeps_settings (e : App.Event) (s : App.State) :
  App.gridSettings (fst (App.step e s)) = App.gridSettings s /\
  App.completedOrders (fst (App.step e s)) = App.completedOrders s.
Proof.
  destruct e as [| | now randoms | | now net]; cbn [App.step].
  - split; reflexivity.
  - destruct (App.isRunning s); split; reflexivity.
  - split; reflexivity.
  - unfold App.savePermanently.
    destruct (negb (String.eqb (App.apiKey (App.apiSettings s)) "")
              && negb (String.eqb (App.apiSecret (App.apiSettings s)) ""));
      split; reflexivity.
  - unfold App.handleApiSettingsSave.
    rewrite ClientProofs.proxy_validateCredentials_result.
    destruct (accepted _ net); split; reflexivity.
Qed.

(** X12: over any sequence of events the running flag depends on the
    clicks alone: it is the initial flag negated by every start/stop
    click and cleared by every emergency stop, in order; price
    refreshes and the saving of API settings, whatever the network does,
    never start or stop the bot.  A halt is not final: the click after
    an emergency stop starts the bot again.  The grid settings and the
    completed orders are the same after the run as before. *)
Theorem running_flag_follows_clicks (events : list App.Event) (s : App.State) :
  App.isRunning (fst (App.run events s)) =
    fold_left RunningFlag.after events (App.isRunning s) /\
  App.isRunning
    (fst (App.run (events ++ [App.ClickEmergencyStop; App.ClickStartStop]) s)) = true /\
  App.gridSettings (fst (App.run events s)) = App.gridSettings s /\
  App.completedOrders (fst (App.run events s)) = App.completedOrders s.
Proof.
  assert (Hflag : forall evs st,
    App.isRunning (fst (App.run evs st)) =
    fold_left RunningFlag.after evs (App.isRunning st)).
  { induction evs as [| e rest IH]; intros st; [reflexivity |].
    rewrite AppProofs.run_cons. cbn [fst fold_left].
    rewrite IH, step_isRunning. reflexivity. }
  split; [apply Hflag |]. split.
  - rewrite Hflag, fold_left_app. reflexivity.
  - revert s. induction events as [| e rest IH]; intros s; [split; reflexivity |].
    rewrite AppProofs.run_cons. cbn [fst].
    destruct (IH (fst (App.step e s))) as [-> ->].
    apply step_keeps_settings.
Qed.

(** *** Saving the API settings *)

(** X13: when the credentials are not accepted, [handleApiSettingsSave]
    leaves every cell and the storage as they were and shows one and the
    same alert, whether the exchange refused the key, the connection
    failed, the body could not be parsed or the secret was empty: the
    cause is not told.  When they are accepted, the client it installs
    talks to the test network exactly when test mode is set, and the
    form is left open. *)
Theorem rejected_credentials_look_alike (now : Z) (net : Network) (s : App.State) :
  let a := App.apiSettings s in
  let client :=
    ProxyClient.new
      (DirectClient.mkConfig (App.apiKey a) (App.apiSecret a) (App.testMode a)) in
  (accepted (App.apiSecret a) net = false ->
   App.handleApiSettingsSave now net s =
   (s, [App.Call (App.CallValidateCredentials client);
        App.Alert "API設定エラー: APIキーまたはシークレットが無効です"])) /\
  (accepted (App.apiSecret a) net = true ->
   App.binanceClient (fst (App.handleApiSettingsSave now net s)) = Some client /\
   ProxyClient.baseUrl client =
     (if App.testMode a then "https://testnet.binance.vision/api/v3"
      else "https://api.binance.com/api/v3") /\
   App.showApiSettings (fst (App.handleApiSettingsSave now net s)) =
     App.showApiSettings s /\
   snd (App.handleApiSettingsSave now net s) =
     [App.Call (App.CallValidateCredentials client);
      App.Alert "API設定が保存されました"]).
Proof.
  cbv zeta. unfold App.handleApiSettingsSave.
  rewrite ClientProofs.proxy_validateCredentials_result.
  cbn [ProxyClient.new ProxyClient.apiSecret DirectClient.cfgApiSecret
       DirectClient.cfgApiKey DirectClient.cfgTestMode ProxyClient.baseUrl].
  split; intros ->; cbn [bind negb]; [reflexivity |].
  cbn [fst snd App.binanceClient App.setBinanceClient App.showApiSettings
       App.setItem].
  do 3 (split; [reflexivity |]). reflexivity.
Qed.

End AppFlowProofs.

(** ** The proxy seen through its wrappers, and the balance readers *)

Module WrapperProofs.
Import Js Http JsonValue Samples.

Lemma priceHandler_reply (symbol : string) (net : Network) :
  let reply := ProxyServer.priceHandler symbol net in
  (exists d, reply = ProxyServer.mkReply 200 (ProxyServer.Data d)) \/
  ((ProxyServer.replyStatus reply < 200 \/ 300 <= ProxyServer.replyStatus reply) /\
   exists details,
     ProxyServer.replyBody reply =
     ProxyServer.ErrorBody "価格取得に失敗しました" (Some details)).
Proof.
  cbv zeta. unfold ProxyServer.priceHandler.
  destruct (ProxyServer.axios net (ProxyServer.priceUpstreamCall symbol))
    as [r | response message] eqn:Hax.
  - left. eexists. reflexivity.
  - right.
    destruct (RequestProofs.errorReply_status "価格取得に失敗しました" response message)
      as (Hout & _ & Hbody).
    + intros r ->. exact (RequestProofs.axios_rejected_status _ _ _ _ Hax).
    + split; assumption.
Qed.

(** X14: asked through the proxy of this repository, [getBalance] of
    the wrapper never returns a balance.  Its request carries the asset
    as its only parameter, the balance route finds neither key nor
    secret in it and answers 400 without contacting the exchange, and
    the wrapper returns that refusal as an error result, for every
    asset and whatever the exchange would have answered. *)
Theorem wrapper_balance_is_always_refused
    (invalidKeyMessage : ProxyServer.QueryValue -> string)
    (asset : string) (now : Z) (net : Network) :
  let reply :=
    ProxyServer.balanceHandler invalidKeyMessage
      (ApiWrappers.V1.getBalanceQuery asset) now net in
  let refusal := JObject [("error", JString "API KeyとSecretが必要です")] in
  reply = ProxyServer.missingCredentials /\
  ApiWrappers.clientSees reply = Some (ApiWrappers.Replied 400 refusal) /\
  ApiWrappers.V1.getBalance asset (ApiWrappers.Replied 400 refusal) =
    Normal (ApiWrappers.mkResult true None
              (Some (JString "API KeyとSecretが必要です")) (Some 400)).
Proof.
  cbv zeta.
  assert (Hreply :
    ProxyServer.balanceHandler invalidKeyMessage
      (ApiWrappers.V1.getBalanceQuery asset) now net =
    ProxyServer.missingCredentials).
  { apply AppProofs.balanceHandler_without_secret.
    unfold ApiWrappers.V1.getBalanceQuery.
    rewrite lookup_singleton_ne by discriminate. reflexivity. }
  rewrite Hreply. split; [reflexivity |]. split; reflexivity.
Qed.

(** X15: what becomes of a failure of the price route in the two
    versions of the wrapper.  For a reply the client receives with its
    body, [getPrice] returns the exchange's data when the route
    succeeded; when it failed, the first version returns the route's
    label and status and drops the details, and never throws; the second
    version looks for a [message] member the proxy never sends, and
    returns its own fixed text with neither label, details nor
    status. *)
Theorem price_failure_through_wrappers (symbol : string) (net : Network)
    (o : ApiWrappers.Outcome)
    (Hsees : ApiWrappers.clientSees (ProxyServer.priceHandler symbol net) = Some o) :
  let reply := ProxyServer.priceHandler symbol net in
  ApiWrappers.V1.getPrice symbol o =
    Normal (match ProxyServer.replyBody reply with
            | ProxyServer.Data d => ApiWrappers.mkResult false (Some d) None None
            | ProxyServer.ErrorBody _ _ =>
                ApiWrappers.mkResult true None
                  (Some (JString "価格取得に失敗しました"))
                  (Some (ProxyServer.replyStatus reply))
            end) /\
  ApiWrappers.V2.getPrice symbol o =
    match ProxyServer.replyBody reply with
    | ProxyServer.Data d => ApiWrappers.mkResult false (Some d) None None
    | ProxyServer.ErrorBody _ _ =>
        ApiWrappers.mkResult true None
          (Some (JString "APIリクエストに失敗しました")) None
    end.
Proof.
  cbv zeta. unfold ApiWrappers.clientSees in Hsees.
  destruct (ApiWrappers.carriesBody
              (ProxyServer.replyStatus (ProxyServer.priceHandler symbol net)));
    [| discriminate].
  injection Hsees as <-.
  unfold ApiWrappers.V1.getPrice, ApiWrappers.V2.getPrice,
    ApiWrappers.V1.wrap, ApiWrappers.V2.wrap, ApiWrappers.settle.
  destruct (priceHandler_reply symbol net) as [[d ->] | [Hout [details Hbody]]].
  - split; reflexivity.
  - rewrite Hbody.
    replace ((200 <=? ProxyServer.replyStatus (ProxyServer.priceHandler symbol net))
             && (ProxyServer.replyStatus (ProxyServer.priceHandler symbol net) <? 300))
      with false.
    + split; reflexivity.
    + symmetry. apply andb_false_iff.
      destruct Hout as [Hlow | Hhigh];
        [left; apply Z.leb_gt | right; apply Z.ltb_ge]; lia.
Qed.

Lemma price_failure_through_wrappers_witness :
  ApiWrappers.V1.getPrice "BTCUSDT"
    (ApiWrappers.Replied 401
       (JObject [("error", JString "価格取得に失敗しました");
                 ("details", JString "Invalid API-key, IP, or permissions for action.")]))
  = Normal (ApiWrappers.mkResult true None
              (Some (JString "価格取得に失敗しました")) (Some 401)).
Proof.
  exact (proj1 (price_failure_through_wrappers "BTCUSDT" (Answers 100 unauthorized)
                  _ eq_refl)).
Defined.

(** *** Reading the balance *)

Lemma makeRequest_success (c : DirectClient.BinanceApiClient)
    (endpoint : string) (params : list (string * string)) (now latency : Z)
    (r : Response) (data : Json) :
  DirectClient.apiSecret c <> "" -> latency < 10000 ->
  ok r = true -> json r = Some data ->
  DirectClient.makeRequest c endpoint params now (Answers latency r) = Normal data.
Proof.
  intros Hsecret Hfast Hok Hjson. unfold DirectClient.makeRequest.
  rewrite ClientProofs.makeRequestCall_cases. cbv zeta.
  apply String.eqb_neq in Hsecret. rewrite Hsecret. cbn [bind].
  unfold fetch. cbn [init signedInit signalTimeout latencyOf].
  replace (10000 <=? latency) with false by (symmetry; apply Z.leb_gt; lia).
  cbn [unaborted]. unfold DirectClient.readResponse, responseJson.
  cbn [await bind]. rewrite Hok, Hjson. reflexivity.
Qed.

(** X16: the two clients read the balance from different places.  Both
    look up the first [BTC] and the first [USDT] entry of a list in the
    same way, but the second client takes the body itself for the list,
    the signing client its [balances] member.  So on the exchange's
    account format (an object) the second client fails with a
    [TypeError], and on a bare list the signing client reports a balance
    of [parseFloat('0')] for both assets without any error, whatever the
    list holds. *)
Theorem balance_readers_expect_different_bodies
    (parseFloat : Json -> float)
    (d : DirectClient.BinanceApiClient) (p : ProxyClient.BinanceApiClient)
    (now latency : Z) (r : Response)
    (items : list Json) (fields : list (string * Json))
    (Hsecret : DirectClient.apiSecret d <> "")
    (Hfast : latency < 10000)
    (Hok : ok r = true) :
  let zero := Balances.mkBalance (parseFloat (JString "0"))
                                 (parseFloat (JString "0")) in
  Balances.proxyDecode parseFloat (JArray items) =
    Balances.directDecode parseFloat (JObject [("balances", JArray items)]) /\
  (json r = Some (JObject fields) ->
   Balances.proxyGetAccountBalance parseFloat p (Answers latency r) =
     Throw (notAFunction "balances.find")) /\
  (json r = Some (JArray items) ->
   Balances.directGetAccountBalance parseFloat d now (Answers latency r) =
     Normal zero) /\
  (json r = Some (JArray []) ->
   Balances.proxyGetAccountBalance parseFloat p (Answers latency r) = Normal zero) /\
  (json r = Some (JObject [("balances", JArray items)]) ->
   Balances.directGetAccountBalance parseFloat d now (Answers latency r) =
     match Balances.readBalances parseFloat items with
     | Normal balance => Normal balance
     | Throw error =>
         Throw (DirectClient.handleError error "残高の取得に失敗しました")
     end).
Proof.
  cbv zeta. split; [reflexivity |].
  unfold Balances.proxyGetAccountBalance, Balances.directGetAccountBalance.
  rewrite RequestProofs.proxy_makeRequest_cases, Hok. unfold responseJson.
  split; [intros ->; reflexivity |].
  split; [| split].
  - intros Hjson.
    rewrite (makeRequest_success d "/account" [] now latency r _
               Hsecret Hfast Hok Hjson).
    reflexivity.
  - intros ->. reflexivity.
  - intros Hjson.
    rewrite (makeRequest_success d "/account" [] now latency r _
               Hsecret Hfast Hok Hjson).
    cbn [bind]. change (Balances.directDecode parseFloat
                          (JObject [("balances", JArray items)]))
      with (Balances.readBalances parseFloat items).
    destruct (Balances.readBalances parseFloat items); reflexivity.
Qed.

Lemma balance_readers_expect_different_bodies_witness :
  Balances.proxyGetAccountBalance (fun _ => 0%float) proxyClient
    (Answers 100 okResponse) = Throw (notAFunction "balances.find").
Proof.
  refine (proj1 (proj2 (balance_readers_expect_different_bodies (fun _ => 0%float)
            directClient proxyClient sampleNow 100 okResponse [] [] _ _ eq_refl))
            eq_refl).
  - discriminate.
  - reflexivity.
Defined.

End WrapperProofs.

(** ** Stored settings: properties *)

Module StorageProofs.
Import Js GridSettingsHook SettingsForm SettingsFlow HookStorage.

Lemma spread_emptyUpdate (s : GridSettings) : spread s emptyUpdate = s.
Proof. destruct s; reflexivity. Qed.

(** X17: settings saved by the hook come back on the next load.  If
    the engine parses the text it wrote for the held settings back to
    the same six numbers (and that text is not empty), then after
    [saveSettings] a load returns exactly the held settings, whatever
    [initialSettings] says, and the settings are no longer dirty.  A
    missing item, an empty item and an unparseable text all load the
    defaults overridden by [initialSettings], without an error. *)
Theorem saved_settings_are_loaded_back
    (stringifySettings : GridSettings -> string)
    (parseSettings : string -> completion PartialGridSettings)
    (initialSettings : option PartialGridSettings)
    (st : HookState) (localStorage : gmap string string)
    (Hparse : parseSettings (stringifySettings (settings st)) =
              Normal (allFields (settings st)))
    (Htext : stringifySettings (settings st) <> "") :
  let saved := saveSettings stringifySettings st localStorage in
  let fallback := spread defaultSettings (default emptyUpdate initialSettings) in
  loadSettings parseSettings initialSettings (snd (fst saved)) = settings st /\
  isDirty (fst (fst saved)) = false /\
  settings (fst (fst saved)) = settings st /\
  (forall text e,
     parseSettings text = Throw e ->
     loadSettings parseSettings initialSettings
       (<["gridBotSettings" := text]> localStorage) = fallback) /\
  loadSettings parseSettings initialSettings
    (<["gridBotSettings" := ""]> localStorage) = fallback /\
  loadSettings parseSettings initialSettings
    (delete "gridBotSettings" localStorage) = fallback /\
  loadSettings parseSettings None (delete "gridBotSettings" localStorage) =
    defaultSettings.
Proof.
  cbv zeta. unfold saveSettings, loadSettings. cbn [fst snd settings isDirty].
  rewrite !lookup_insert_eq, !lookup_delete_eq.
  apply String.eqb_neq in Htext. rewrite Htext, Hparse.
  split; [apply FormProofs.spread_allFields |].
  split; [reflexivity |]. split; [reflexivity |].
  split; [| split; [reflexivity | split; [reflexivity |]]].
  - intros text e Hfail. rewrite lookup_insert_eq, Hfail.
    destruct (String.eqb text ""); reflexivity.
  - cbn [from_option id]. apply spread_emptyUpdate.
Qed.

Lemma saved_settings_are_loaded_back_witness :
  loadSettings (fun _ => Normal (allFields defaultSettings)) None
    (snd (fst (saveSettings (fun _ => "{}") initialState ∅)))
  = defaultSettings.
Proof.
  refine (proj1 (saved_settings_are_loaded_back (fun _ => "{}")
            (fun _ => Normal (allFields defaultSettings)) None initialState ∅
            eq_refl _)).
  discriminate.
Defined.

(** X18: after a reload the form does not know the stored settings.
    The hook loads them, but the component's own copy starts from the
    built-in values, and the optimization settings start from their
    literals whatever was stored.  So the first value committed by a
    form field replaces the hook's settings by the built-in values with
    that one field changed, and stores that: the five other stored
    values are lost. *)
Theorem reload_forgets_stored_settings
    (stringifySettings : GridSettings -> string)
    (parseSettings : string -> completion PartialGridSettings)
    (localStorage : gmap string string) (f : Field) (v : float) :
  let st := mount parseSettings localStorage in
  let st' := fieldChanged stringifySettings f v st in
  settings (hook st) = loadSettings parseSettings None localStorage /\
  localSettings st = defaultSettings /\
  lastOptimized (aiOptimization st) = None /\
  enabled (aiOptimization st) = false /\
  settings (hook st') = setField f v defaultSettings /\
  (forall g, g <> f ->
     getField g (settings (hook st')) = getField g defaultSettings) /\
  SettingsFlow.localStorage st' !! "gridBotSettings" =
    Some (stringifySettings (setField f v defaultSettings)).
Proof.
  cbv zeta. do 4 (split; [reflexivity |]).
  unfold fieldChanged.
  destruct (FormProofs.handleSettingsUpdate_settings stringifySettings
              (setField f v (localSettings (mount parseSettings localStorage)))
              (mount parseSettings localStorage)) as (_ & -> & _ & ->).
  split; [reflexivity |]. split; [| reflexivity].
  intros g Hg. apply FormProofs.getField_single_other, Hg.
Qed.

(** X19: the optimized settings reach the storage through the hook's
    autosave.  The optimization leaves the hook dirty, so the autosave
    timer that follows stores the optimized settings under the key the
    form uses and clears the dirty flag, while the component's own copy
    still holds the values from before the optimization; an autosave
    timer on settings that are not dirty changes nothing. *)
Theorem autosave_stores_optimized_settings
    (stringifySettings : GridSettings -> string)
    (stringifyAi : AiOptimization -> string) (toISOString : Z -> string)
    (captured : GridSettings * AiOptimization) (now now' : Z) (st : State) :
  let optimized :=
    fst (optimizationTimer stringifyAi toISOString captured now now' st) in
  let saved := autosaveTimer stringifySettings optimized in
  SettingsFlow.localStorage saved !! "gridBotSettings" =
    Some (stringifySettings (optimizedSettings (fst captured))) /\
  isDirty (hook saved) = false /\
  settings (hook saved) = optimizedSettings (fst captured) /\
  localSettings saved = localSettings st /\
  autosaveTimer stringifySettings saved = saved.
Proof.
  destruct captured as [gridSettings ai]. cbv zeta.
  unfold autosaveTimer, optimizationTimer, updateSettings, saveSettings.
  cbn [fst snd hook settings isDirty localSettings SettingsFlow.localStorage].
  rewrite FormProofs.spread_allFields, lookup_insert_eq.
  repeat split.
Qed.

End StorageProofs.

(** ** The connection test: properties *)

Module BalanceFlowProofs.
Import Js Http Samples.

Lemma proxyGetAccountBalance_any_credentials (parseFloat : Json -> float)
    (apiKey apiSecret apiKey' apiSecret' : string) (testMode : bool)
    (net : Network) :
  Balances.proxyGetAccountBalance parseFloat
    (ProxyClient.new (DirectClient.mkConfig apiKey apiSecret testMode)) net =
  Balances.proxyGetAccountBalance parseFloat
    (ProxyClient.new (DirectClient.mkConfig apiKey' apiSecret' testMode)) net.
Proof.
  unfold Balances.proxyGetAccountBalance.
  rewrite !RequestProofs.proxy_makeRequest_cases. reflexivity.
Qed.

(** X20: the connection test does not test the credentials.  The
    balance request it sends is the same for every key and secret, so
    its outcome depends on the network and the test-mode flag alone: if
    it succeeds for one pair of non-empty credentials it succeeds for
    every other pair.  On success the settings typed into the form,
    secret included, are stored under [gridBotApiSettings] and the
    client is installed; on failure nothing changes and the alert shows
    the error's message. *)
Theorem connection_test_ignores_credentials (parseFloat : Json -> float)
    (net : Network) (s : App.State) (apiKey' apiSecret' : string)
    (Hkey : App.apiKey (App.apiSettings s) <> "")
    (Hsecret : App.apiSecret (App.apiSettings s) <> "") :
  let a := App.apiSettings s in
  let client :=
    ProxyClient.new
      (DirectClient.mkConfig (App.apiKey a) (App.apiSecret a) (App.testMode a)) in
  let other :=
    ProxyClient.new (DirectClient.mkConfig apiKey' apiSecret' (App.testMode a)) in
  Balances.proxyGetAccountBalance parseFloat client net =
    Balances.proxyGetAccountBalance parseFloat other net /\
  match Balances.proxyGetAccountBalance parseFloat other net with
  | Normal _ =>
      App.localStorage (fst (BalanceFlow.connectionTest parseFloat net s))
        !! "gridBotApiSettings" = Some (App.stringifyApiSettings a) /\
      App.binanceClient (fst (BalanceFlow.connectionTest parseFloat net s))
        = Some client /\
      App.showApiSettings (fst (BalanceFlow.connectionTest parseFloat net s))
        = false /\
      snd (BalanceFlow.connectionTest parseFloat net s) =
        [App.Call (App.CallGetAccountBalance client);
         App.Alert "APIキーの接続に成功しました！"]
  | Throw error =>
      BalanceFlow.connectionTest parseFloat net s =
      (s, [App.Call (App.CallGetAccountBalance client);
           App.Alert ("API接続テスト中にエラーが発生しました: " +:+ message error)])
  end.
Proof.
  cbv zeta.
  pose proof (proxyGetAccountBalance_any_credentials parseFloat
                (App.apiKey (App.apiSettings s)) (App.apiSecret (App.apiSettings s))
                apiKey' apiSecret' (App.testMode (App.apiSettings s)) net) as Hsame.
  split; [exact Hsame |]. rewrite <- Hsame.
  unfold BalanceFlow.connectionTest. cbv zeta.
  apply String.eqb_neq in Hkey, Hsecret. rewrite Hkey, Hsecret. cbn [negb andb].
  destruct (Balances.proxyGetAccountBalance parseFloat _ net) as [balance | error].
  - cbn [fst snd App.setShowApiSettings App.setBinanceClient App.setItem
         App.localStorage App.binanceClient App.showApiSettings].
    rewrite lookup_insert_eq. repeat split.
  - reflexivity.
Qed.

Lemma connection_test_ignores_credentials_witness :
  Balances.proxyGetAccountBalance (fun _ => 0%float)
    (ProxyClient.new (DirectClient.mkConfig "key" "s3cr3t" true))
    (Answers 100 unauthorized) =
  Balances.proxyGetAccountBalance (fun _ => 0%float)
    (ProxyClient.new (DirectClient.mkConfig "" "" true))
    (Answers 100 unauthorized).
Proof.
  refine (proj1 (connection_test_ignores_credentials (fun _ => 0%float)
                   (Answers 100 unauthorized) withCredentials "" "" _ _)).
  - discriminate.
  - discriminate.
Defined.

End BalanceFlowProofs.
